(** * Health tracker: the dataset cleaner, the food matcher and the
      nutrition aggregator

    A shallow embedding of [clean.py] (function [clean_food_dataset]) and of
    [Health_tracker_1.py] (functions [load_food_dataset],
    [find_food_calories], [calculate_nutritional_info] and the submission
    branch of [nutrition_tracking_page]), with the properties the
    specification states about them.

    Conventions of the embedding.
    - Python [str] values are [string]s; the character predicates and
      [lower] are the ASCII ones, so that the embedding speaks of texts of
      ASCII characters.
    - A raised exception is the [Err] branch of [result].
    - Library functions that are not part of the repository ([float] on a
      token, the regular-expression search behind [Series.str.contains],
      float arithmetic and float formatting) are parameters of the
      definitions; concrete instances are given next to them so that every
      definition can be run.
    - The search parameter is a total function: it stands for the search
      on the patterns that compile.  The statements that need the search
      to return are made for the literal search, on names that hold no
      regular-expression operator.
    - Numbers are given two instances: the exact rationals, and binary64,
      the floats of Python. *)

From Stdlib Require Import ZArith QArith Qround Ascii String List Bool Lia.
From Stdlib Require Import Qabs DecimalString.
From Stdlib Require PrimFloat SpecFloat FloatOps.
From stdpp Require Import gmap strings list fin_maps.

Import ListNotations.
Local Open Scope string_scope.
Local Open Scope list_scope.

(** ** Python string primitives (ASCII) *)

Definition nat_in (lo hi : nat) (c : ascii) : bool :=
  (lo <=? nat_of_ascii c)%nat && (nat_of_ascii c <=? hi)%nat.

(** [str.isdigit] *)
Definition isdigit (c : ascii) : bool := nat_in 48 57 c.

(** [str.isalpha] *)
Definition isalpha (c : ascii) : bool := nat_in 65 90 c || nat_in 97 122 c.

(** [str.isspace]: tab, line feed, vertical tab, form feed, carriage
    return, the four separators 28..31 and the blank. *)
Definition isspace (c : ascii) : bool :=
  nat_in 9 13 c || nat_in 28 32 c.

Definition lower_char (c : ascii) : ascii :=
  if nat_in 65 90 c then ascii_of_nat (nat_of_ascii c + 32) else c.

(** [s.lower()] *)
Fixpoint lower (s : string) : string :=
  match s with
  | EmptyString => EmptyString
  | String c r => String (lower_char c) (lower r)
  end.

(** [''.join(filter(p, s))] *)
Fixpoint filter_chars (p : ascii -> bool) (s : string) : string :=
  match s with
  | EmptyString => EmptyString
  | String c r => if p c then String c (filter_chars p r) else filter_chars p r
  end.

(** [s.startswith(p)] *)
Fixpoint startswith (p s : string) : bool :=
  match p, s with
  | EmptyString, _ => true
  | String a p', String b s' => if Ascii.eqb a b then startswith p' s' else false
  | String _ _, EmptyString => false
  end.

(** [needle in hay] on two [str] values: literal substring search. *)
Fixpoint str_in (needle hay : string) : bool :=
  startswith needle hay ||
  match hay with
  | EmptyString => false
  | String _ r => str_in needle r
  end.

(** [s.split()]: the maximal runs of non-blank characters, in order.
    [tok] is the run being read, reversed. *)
Fixpoint split_from (tok : list ascii) (s : string) : list string :=
  match s with
  | EmptyString =>
      match tok with
      | [] => []
      | _ => [string_of_list_ascii (rev tok)]
      end
  | String c r =>
      if isspace c then
        match tok with
        | [] => split_from [] r
        | _ => string_of_list_ascii (rev tok) :: split_from [] r
        end
      else split_from (c :: tok) r
  end.

Definition split (s : string) : list string := split_from [] s.

Fixpoint lstrip (s : string) : string :=
  match s with
  | EmptyString => EmptyString
  | String c r => if isspace c then lstrip r else s
  end.

Definition rev_string (s : string) : string :=
  string_of_list_ascii (rev (list_ascii_of_string s)).

(** [s.strip()] *)
Definition strip (s : string) : string :=
  rev_string (lstrip (rev_string (lstrip s))).

(** [sep.join(parts)] *)
Definition join (sep : string) (parts : list string) : string :=
  String.concat sep parts.

Definition tab : string := String (ascii_of_nat 9) "".
Definition newline : string := String (ascii_of_nat 10) "".

(** [line.strip().split()] *)
Definition tokens (line : string) : list string := split (strip line).

(** ** Python list slices *)

(** [l[-k:]] for a positive [k]: the last [k] elements, the whole list when
    it is shorter. *)
Definition last_n {A} (k : nat) (l : list A) : list A :=
  skipn (length l - k) l.

(** [l[:-k]]: everything but the last [k] elements; [l[:-0]] is [l[:0]],
    the empty list. *)
Definition drop_last_n {A} (k : nat) (l : list A) : list A :=
  match k with
  | O => []
  | _ => firstn (length l - k) l
  end.

(** ** A recogniser for the tokens Python's [float] accepts

    [float(tok)] is a built-in; the cleaner only observes whether it raises
    [ValueError].  [py_float_ok] recognises the ASCII grammar of the
    built-in: an optional sign, then [inf], [infinity] or [nan] in any
    case, or a decimal number with an optional fraction and exponent whose
    digit groups may be separated by single underscores. *)

(** Consumes [("_"? digit)*]. *)
Fixpoint eat_more_digits (s : list ascii) : list ascii :=
  match s with
  | c :: r =>
      if isdigit c then eat_more_digits r
      else if Ascii.eqb c "_" then
        match r with
        | d :: r' => if isdigit d then eat_more_digits r' else s
        | [] => s
        end
      else s
  | [] => []
  end.

(** Consumes [digit ("_"? digit)*]; [None] when there is no leading digit. *)
Definition eat_digitpart (s : list ascii) : option (list ascii) :=
  match s with
  | c :: r => if isdigit c then Some (eat_more_digits r) else None
  | [] => None
  end.

Definition eat_sign (s : list ascii) : list ascii :=
  match s with
  | c :: r => if Ascii.eqb c "+" || Ascii.eqb c "-" then r else s
  | [] => []
  end.

(** The exponent, when one starts here, must be complete. *)
Definition eat_exponent (s : list ascii) : option (list ascii) :=
  match s with
  | c :: r =>
      if Ascii.eqb c "e" || Ascii.eqb c "E" then eat_digitpart (eat_sign r)
      else Some s
  | [] => Some []
  end.

Definition eat_mantissa (s : list ascii) : option (list ascii) :=
  match s with
  | c :: r =>
      if Ascii.eqb c "." then eat_digitpart r
      else
        match eat_digitpart s with
        | Some (d :: r') =>
            if Ascii.eqb d "." then
              match eat_digitpart r' with
              | Some r'' => Some r''
              | None => Some r'
              end
            else Some (d :: r')
        | other => other
        end
  | [] => None
  end.

Definition is_special (s : string) : bool :=
  let l := lower s in
  String.eqb l "inf" || String.eqb l "infinity" || String.eqb l "nan".

Definition py_float_ok (tok : string) : bool :=
  let body := eat_sign (list_ascii_of_string tok) in
  is_special (string_of_list_ascii body) ||
  match eat_mantissa body with
  | Some rest =>
      match eat_exponent rest with
      | Some [] => true
      | _ => false
      end
  | None => false
  end.

(** ** The dataset cleaner ([clean.py]) *)

Section Cleaner.

(** [float_ok tok] holds when [float(tok)] returns, and fails when it
    raises [ValueError]. *)
Variable float_ok : string -> bool.

(** Lines 29-36: the header line. *)
Definition clean_header (header_line : string) : string :=
  let header_parts := split header_line in
  if (6 <? length header_parts)%nat then
    let description_parts := firstn (length header_parts - 5) header_parts in
    let numeric_headers := skipn (length description_parts) header_parts in
    join "_" description_parts ++ tab ++ join tab numeric_headers
  else join tab header_parts.

(** Lines 54-62: walk the candidates in list order, keep a token while
    [float] accepts it, stop at the first one it rejects. *)
Fixpoint scan_numeric (candidates : list string) : list string :=
  match candidates with
  | [] => []
  | part :: rest =>
      if float_ok part then part :: scan_numeric rest else []
  end.

(** Lines 43-70 on the tokens of one data line: the description tokens
    and the numeric tokens of a kept row, [None] for a skipped row. *)
Definition split_row (parts : list string) : option (list string * list string) :=
  if (length parts <? 6)%nat then None
  else
    let numeric_part_candidates := last_n 5 parts in
    let numeric_parts := scan_numeric numeric_part_candidates in
    if (length numeric_parts <? 4)%nat then None
    else Some (drop_last_n (length numeric_parts) parts, numeric_parts).

(** Lines 71-74: the cleaned line of a kept row. *)
Definition format_row (description_parts numeric_parts : list string) : string :=
  join "_" description_parts ++ tab ++ join tab numeric_parts.

(** Lines 42-75: one iteration of the loop over the data lines. *)
Definition clean_row (line : string) : option string :=
  match split_row (tokens line) with
  | Some (description_parts, numeric_parts) =>
      Some (format_row description_parts numeric_parts)
  | None => None
  end.

(** Lines 17-75: the lines the function writes, [None] for an empty input
    (the function prints an error and returns before it writes).  The text
    written to the output file is [join newline] of this list.  The value
    the function returns is another matter, and is not embedded: it is the
    frame pandas reads back from the written file, or [None] when that
    check fails (lines 81-101), and [None] as well when the input file
    does not exist (lines 12-14). *)
Definition clean_food_dataset (lines : list string) : option (list string) :=
  match lines with
  | [] => None
  | header :: data =>
      Some (clean_header (strip header) :: omap clean_row data)
  end.

End Cleaner.

(** *** The description of the row scan in the specification

    The specification reads the numeric fields from the right: the longest
    run of accepted tokens that ends at the last token of the row, looked
    for within the last five tokens.  [spec_right_run] and [spec_split_row]
    follow these words; they are compared with [scan_numeric] and
    [split_row] above, which follow the code. *)

Section CleanerSpec.

Variable float_ok : string -> bool.

Definition spec_right_run (parts : list string) : list string :=
  rev (scan_numeric float_ok (rev (last_n 5 parts))).

Definition spec_split_row (parts : list string)
  : option (list string * list string) :=
  let run := spec_right_run parts in
  if (length run <? 4)%nat then None
  else Some (firstn (length parts - length run) parts, run).

(** The longest run of accepted tokens at the end of the whole row. *)
Definition trailing_run (parts : list string) : list string :=
  rev (scan_numeric float_ok (rev parts)).

End CleanerSpec.

(** ** Exceptions

    The exceptions the tracker can raise on the paths embedded below. *)

Inductive exn :=
  | KeyError (key : string)     (* a column label that is not in the frame *)
  | ValueError                  (* a boolean mask holding a missing value *)
  | TypeError (msg : string).   (* a call or an operand of the wrong shape *)

Inductive result (A : Type) :=
  | Ok (a : A)
  | Err (e : exn).

Arguments Ok {A} a.
Arguments Err {A} e.

#[global] Instance result_ret : MRet result := fun A a => Ok a.

#[global] Instance result_bind : MBind result := fun A B f m =>
  match m with
  | Ok a => f a
  | Err e => Err e
  end.

(** ** Numbers

    Python floats enter the tracker through [float] on a string of digits,
    the int constants of the code, [+], [*], [/] and the format
    specifications [.0f] and [.1f].  The tracker is embedded over any type
    that offers these operations. *)

Class PyFloat (F : Type) := {
  of_int : Z -> F;                    (* an int operand, or [float] of digits *)
  fadd : F -> F -> F;
  fmul : F -> F -> F;
  fdiv : F -> F -> F;
  format_fixed : nat -> F -> string;  (* [format(x, ".nf")] *)
  to_str : F -> string                (* [str(x)] *)
}.

(** The value of a string of ASCII digits. *)
Definition digits_value (s : string) : Z :=
  fold_left (fun acc c => (acc * 10 + Z.of_nat (nat_of_ascii c - 48))%Z)
            (list_ascii_of_string s) 0%Z.

(** *** Exact rationals

    An instance whose arithmetic is that of the rationals.  Operations
    return reduced fractions, so that equal numbers are equal terms.
    Python computes in binary64, which rounds after each operation: see
    [B64_PyFloat] for the floats of the interpreter. *)

Definition round_half_even (q : Q) : Z :=
  let f := Qfloor q in
  match Qcompare (q - inject_Z f) (1 # 2) with
  | Lt => f
  | Gt => (f + 1)%Z
  | Eq => if Z.even f then f else (f + 1)%Z
  end.

Definition decimal (z : Z) : string :=
  NilZero.string_of_uint (N.to_uint (Z.to_N z)).

Fixpoint zeros (n : nat) : string :=
  match n with
  | O => ""
  | S m => String "0" (zeros m)
  end.

Definition zero_pad (width : nat) (s : string) : string :=
  zeros (width - String.length s) ++ s.

Definition Q_format_fixed (digits : nat) (q : Q) : string :=
  let scale := (10 ^ Z.of_nat digits)%Z in
  let n := round_half_even (Qabs q * inject_Z scale) in
  let sign := if Qlt_le_dec q 0 then "-" else "" in
  let whole := decimal (n / scale) in
  match digits with
  | O => sign ++ whole
  | _ => sign ++ whole ++ "." ++ zero_pad digits (decimal (n mod scale))
  end.

(** The number of decimals, at least one and at most [fuel], that write
    [q] exactly; [fuel] when there is none. *)
Fixpoint decimals_needed (fuel : nat) (k : nat) (q : Q) : nat :=
  match fuel with
  | O => k
  | S fuel' =>
      let scaled := Qred (q * inject_Z (10 ^ Z.of_nat k)) in
      if Pos.eqb (Qden scaled) 1 then k else decimals_needed fuel' (S k) q
  end.

Definition Q_to_str (q : Q) : string :=
  Q_format_fixed (decimals_needed 16 1 q) q.

#[global] Instance Q_PyFloat : PyFloat Q := {
  of_int := inject_Z;
  fadd x y := Qred (x + y);
  fmul x y := Qred (x * y);
  fdiv x y := Qred (x / y);
  format_fixed := Q_format_fixed;
  to_str := Q_to_str
}.

(** ** The tracker ([Health_tracker_1.py]) *)

Definition description_column : string := "Main food description".
Definition energy_column : string := "Energy (kcal)".
Definition protein_column : string := "Protein (g)".
Definition carbohydrate_column : string := "Carbohydrate (g)".
Definition fat_column : string := "Total Fat (g)".

(** Lines 47-58: the allow-list of the loader. *)
Definition nutrition_columns : list string :=
  [ description_column; energy_column; protein_column; carbohydrate_column;
    "Sugars, total (g)"; "Fiber, total dietary (g)"; fat_column;
    "Cholesterol (mg)"; "Sodium (mg)"; "Calcium (mg)" ].

(** The five columns [find_food_calories] reads. *)
Definition matcher_columns : list string :=
  [ description_column; energy_column; protein_column; carbohydrate_column;
    fat_column ].

(** Lines 147-151 and the [.get(unit, 1)] of line 154. *)
Definition unit_multipliers : gmap string Z :=
  {[ "g" := 1%Z; "ml" := 1%Z; "piece" := 100%Z ]}.

Definition unit_multiplier (unit : string) : Z :=
  default 1%Z (unit_multipliers !! unit).

Inductive match_type := Exact | Partial | NoMatchFound.

(** One entry of the form: [{"name": ..., "quantity": ...}]. *)
Record FoodEntry := { name : string; quantity : string }.

(** The wording of the interpreter's messages. *)
Definition quoted (s : string) : string := "'" ++ s ++ "'".

Definition plural (n : nat) (noun : string) : string :=
  if (n =? 1)%nat then noun else noun ++ "s".

Definition english_list (names : list string) : string :=
  match names with
  | [] => ""
  | [a] => a
  | [a; b] => a ++ " and " ++ b
  | _ => join ", " (removelast names) ++ ", and " ++ default "" (last names)
  end.

Section Tracker.

Context {F : Type} `{PyFloat F}.

(** [str_contains pat s]: the search pandas runs for
    [Series.str.contains(pat)] on the text [s], for a pattern [pat] that
    compiles (pandas raises [re.error] on the others).  It is a regular
    expression search of the pandas library; the matcher is embedded over
    any such search. *)
Variable str_contains : string -> string -> bool.

(** *** Data frames

    A frame is a list of column labels and a list of rows, each row a map
    from labels to cells.  A cell is a text or a number; pandas stores a
    missing value as the float [nan], a [Num] cell here. *)

Inductive cell :=
  | Str (s : string)
  | Num (x : F).

Record DataFrame := {
  columns : list string;
  rows : list (gmap string cell)
}.

(** [df[label]]: the cells of one column, [KeyError] for a label that the
    frame does not have. *)
Definition get_column (df : DataFrame) (label : string)
  : result (list (option cell)) :=
  if bool_decide (label ∈ columns df)
  then Ok (map (fun row => row !! label) (rows df))
  else Err (KeyError label).

(** [row[label]] on one row of a frame. *)
Definition get_item (row : gmap string cell) (label : string) : result cell :=
  match row !! label with
  | Some c => Ok c
  | None => Err (KeyError label)
  end.

(** [df[labels]]: the projection of a frame on a list of its labels. *)
Definition select_columns (labels : list string) (df : DataFrame) : DataFrame :=
  {| columns := labels;
     rows := map (fun row => filter (fun kv => kv.1 ∈ labels) row) (rows df) |}.

(** [df[mask]]: the rows whose mask entry is true. *)
Definition mask_rows (mask : list bool) (rs : list (gmap string cell))
  : list (gmap string cell) :=
  map snd (filter (fun br => Is_true br.1) (zip mask rs)).

(** [.str.lower()] on one cell: text is lowered, any other value becomes
    a missing value. *)
Definition cell_str_lower (c : option cell) : option string :=
  match c with
  | Some (Str s) => Some (lower s)
  | _ => None
  end.

(** [series == text]: a missing value compares unequal. *)
Definition cell_eq (text : string) (c : option string) : bool :=
  match c with
  | Some s => String.eqb s text
  | None => false
  end.

(** [.str.contains(pat)] keeps missing values missing; indexing a frame
    with a mask that holds one raises [ValueError]. *)
Fixpoint contains_mask (pat : string) (cs : list (option string))
  : result (list bool) :=
  match cs with
  | [] => Ok []
  | None :: _ => Err ValueError
  | Some s :: rest =>
      mask ← contains_mask pat rest;
      mret (str_contains pat s :: mask)
  end.

(** [cell * n] for an int [n]: a number is multiplied, a text repeated. *)
Definition cell_times_int (c : cell) (n : Z) : cell :=
  match c with
  | Num x => Num (fmul x (of_int n))
  | Str s => Str (String.concat "" (repeat s (Z.to_nat n)))
  end.

(** [cell * x] for a float [x]: a text operand raises [TypeError]. *)
Definition cell_times_float (c : cell) (x : F) : result F :=
  match c with
  | Num y => Ok (fmul y x)
  | Str _ => Err (TypeError "can't multiply sequence by non-int of type 'float'")
  end.

(** *** The loader, lines 43-66

    [sheet] is the frame [pd.read_excel] returns. *)
Definition load_food_dataset (sheet : DataFrame) : DataFrame :=
  let available_columns :=
    filter (fun col => col ∈ columns sheet) nutrition_columns in
  select_columns available_columns sheet.

(** *** The matcher, lines 68-108 *)

Record MatchResult := {
  calories : cell;
  protein : cell;
  carbs : cell;
  fat : cell;
  match_kind : match_type;
  food_description : option cell    (* the key is absent when nothing matched *)
}.

(** Lines 87-93. *)
Definition no_match_found : MatchResult :=
  {| calories := Num (of_int 0); protein := Num (of_int 0);
     carbs := Num (of_int 0); fat := Num (of_int 0);
     match_kind := NoMatchFound; food_description := None |}.

Definition find_food_calories (food_name : string) (dataset : DataFrame)
  : result MatchResult :=
  let food_name := lower food_name in
  descriptions ← get_column dataset description_column;
  let lowered := map cell_str_lower descriptions in
  let exact_matches := mask_rows (map (cell_eq food_name) lowered) (rows dataset) in
  selected ←
    (if (length exact_matches =? 0)%nat then
       mask ← contains_mask food_name lowered;
       let partial_matches := mask_rows mask (rows dataset) in
       if (0 <? length partial_matches)%nat
       then mret (head partial_matches)
       else mret None
     else mret (head exact_matches));
  match selected with
  | None => mret no_match_found
  | Some row =>
      energy ← get_item row energy_column;
      let calories_per_100g := cell_times_int energy 100 in
      p ← get_item row protein_column;
      c ← get_item row carbohydrate_column;
      f ← get_item row fat_column;
      d ← get_item row description_column;
      mret {| calories := calories_per_100g;
              protein := cell_times_int p 100;
              carbs := cell_times_int c 100;
              fat := cell_times_int f 100;
              match_kind :=
                if (0 <? length exact_matches)%nat then Exact else Partial;
              food_description := Some d |}
  end.

(** *** The aggregator, lines 110-185 *)

(** The locals of the loop. *)
Record Totals := {
  total_calories : F;
  total_protein : F;
  total_carbs : F;
  total_fat : F;
  detailed_breakdown : list string;
  unmatched_foods : list string
}.

(** Lines 122-127. *)
Definition initial_totals : Totals :=
  {| total_calories := of_int 0; total_protein := of_int 0;
     total_carbs := of_int 0; total_fat := of_int 0;
     detailed_breakdown := []; unmatched_foods := [] |}.

(** Lines 138-144: [float] of the digits of the string and the lowered
    letters of the string; [None] when [float] raises, which on a text of
    ASCII characters it does on the empty string of digits only. *)
Definition parse_quantity (quantity_str : string) : option (F * string) :=
  let digits := filter_chars isdigit quantity_str in
  if String.eqb digits "" then None
  else Some (of_int (digits_value digits),
             lower (filter_chars isalpha quantity_str)).

(** Line 154. *)
Definition scale_factor (quantity : F) (unit : string) : F :=
  fmul (fdiv quantity (of_int 100)) (of_int (unit_multiplier unit)).

(** [str(cell)], for the f-string of line 175. *)
Definition cell_text (c : cell) : string :=
  match c with
  | Str s => s
  | Num x => to_str x
  end.

(** Line 175. *)
Definition breakdown_entry (description quantity_str : string)
           (calories protein carbs fat : F) : string :=
  description ++ " (" ++ quantity_str ++ "): " ++ format_fixed 0 calories
    ++ " cal (Protein: " ++ format_fixed 1 protein
    ++ "g, Carbs: " ++ format_fixed 1 carbs
    ++ "g, Fat: " ++ format_fixed 1 fat ++ "g)".

Definition add_unmatched (food_name : string) (acc : Totals) : Totals :=
  {| total_calories := total_calories acc;
     total_protein := total_protein acc;
     total_carbs := total_carbs acc;
     total_fat := total_fat acc;
     detailed_breakdown := detailed_breakdown acc;
     unmatched_foods := unmatched_foods acc ++ [food_name] |}.

(** Lines 130-176: one iteration of the loop. *)
Definition process_entry (query_item : string) (dataset : DataFrame)
           (acc : Totals) (entry : FoodEntry) : result Totals :=
  let food_name := name entry in
  let quantity_str := quantity entry in
  if negb (str_in (lower query_item) (lower food_name)) then mret acc
  else
    match parse_quantity quantity_str with
    | None => mret (add_unmatched food_name acc)
    | Some (quantity, unit) =>
        let multiplier := scale_factor quantity unit in
        food_info ← find_food_calories food_name dataset;
        match match_kind food_info with
        | NoMatchFound => mret (add_unmatched food_name acc)
        | _ =>
            calories ← cell_times_float (calories food_info) multiplier;
            protein ← cell_times_float (protein food_info) multiplier;
            carbs ← cell_times_float (carbs food_info) multiplier;
            fat ← cell_times_float (fat food_info) multiplier;
            description ←
              match food_description food_info with
              | Some d => Ok (cell_text d)
              | None => Err (KeyError "food_description")
              end;
            mret {| total_calories := fadd (total_calories acc) calories;
                    total_protein := fadd (total_protein acc) protein;
                    total_carbs := fadd (total_carbs acc) carbs;
                    total_fat := fadd (total_fat acc) fat;
                    detailed_breakdown :=
                      detailed_breakdown acc ++
                      [breakdown_entry description quantity_str
                                       calories protein carbs fat];
                    unmatched_foods := unmatched_foods acc |}
        end
    end.

(** Line 129: the loop. *)
Fixpoint process_entries (query_item : string) (dataset : DataFrame)
         (acc : Totals) (food_entries : list FoodEntry) : result Totals :=
  match food_entries with
  | [] => mret acc
  | entry :: rest =>
      acc' ← process_entry query_item dataset acc entry;
      process_entries query_item dataset acc' rest
  end.

(** The dictionary of lines 178-185. *)
Record NutritionInfo := {
  info_calories : F;
  info_protein : F;
  info_carbs : F;
  info_fat : F;
  breakdown : string;
  info_unmatched : list string
}.

Definition calculate_nutritional_info (food_entries : list FoodEntry)
           (query_item : string) (dataset : DataFrame) : result NutritionInfo :=
  acc ← process_entries query_item dataset initial_totals food_entries;
  mret {| info_calories := total_calories acc;
          info_protein := total_protein acc;
          info_carbs := total_carbs acc;
          info_fat := total_fat acc;
          breakdown := join newline (detailed_breakdown acc);
          info_unmatched := unmatched_foods acc |}.

(** *** The submission branch of [nutrition_tracking_page]

    A value passed at a call. *)
Inductive pyvalue :=
  | PyEntries (food_entries : list FoodEntry)
  | PyStr (s : string)
  | PyFrame (df : DataFrame).

(** Python's binding of positional arguments to the parameters of a
    function that has neither defaults nor starred parameters: each
    parameter takes the argument at its position, and a call with fewer
    or more arguments than parameters raises [TypeError], with the message
    of the interpreter, before the body runs. *)
Definition bind_arguments (fname : string) (params : list string)
           (args : list pyvalue) : result (list (string * pyvalue)) :=
  if (length args <? length params)%nat then
    let missing := skipn (length args) params in
    Err (TypeError
           (fname ++ "() missing " ++ decimal (Z.of_nat (length missing))
              ++ " required positional " ++ plural (length missing) "argument"
              ++ ": " ++ english_list (map quoted missing)))
  else if (length params <? length args)%nat then
    Err (TypeError
           (fname ++ "() takes " ++ decimal (Z.of_nat (length params))
              ++ " positional " ++ plural (length params) "argument"
              ++ " but " ++ decimal (Z.of_nat (length args))
              ++ (if (length args =? 1)%nat then " was" else " were")
              ++ " given"))
  else Ok (zip params args).

(** Line 110: [def calculate_nutritional_info(food_entries, query_item,
    dataset)], as the callee of a Python call.  The body runs on the bound
    values; values of another kind than the body expects are not passed
    anywhere in the repository and end the embedding with [TypeError]. *)
Definition call_calculate_nutritional_info (args : list pyvalue)
  : result NutritionInfo :=
  bound ← bind_arguments "calculate_nutritional_info"
                         ["food_entries"; "query_item"; "dataset"] args;
  match map snd bound with
  | [PyEntries food_entries; PyStr query_item; PyFrame dataset] =>
      calculate_nutritional_info food_entries query_item dataset
  | _ => Err (TypeError "argument of an unexpected type")
  end.

(** One row of [nutrition_log.csv]. *)
Record LogRow := {
  log_date : string;
  log_meal_type : string;
  log_food_items : string;
  log_calories : F;
  log_protein : F;
  log_carbs : F;
  log_fat : F
}.

(** Lines 293-305: the entries of the form, from the pairs of texts
    typed in the name and quantity fields. *)
Definition form_entries (fields : list (string * string)) : list FoodEntry :=
  omap (fun nq =>
          if negb (String.eqb nq.1 "") && negb (String.eqb nq.2 "")
          then Some {| name := nq.1; quantity := nq.2 |}
          else None) fields.

(** Lines 267-338 of [nutrition_tracking_page]: the exception that ends
    the run, if any, and the rows of the log file afterwards.  [log] holds
    the rows of the file before the run (none when there is no file). *)
Definition nutrition_tracking_page (profile_name : string)
           (food_dataset : DataFrame) (intake_date meal_type : string)
           (fields : list (string * string)) (submitted : bool)
           (log : list LogRow) : option exn * list LogRow :=
  if String.eqb profile_name "" then (None, log)
  else
    let food_entries := form_entries fields in
    if submitted && (0 <? length food_entries)%nat then
      match call_calculate_nutritional_info
              [PyEntries food_entries; PyFrame food_dataset] with
      | Err e => (Some e, log)
      | Ok nutrition_info =>
          let meal_data :=
            {| log_date := intake_date;
               log_meal_type := meal_type;
               log_food_items := breakdown nutrition_info;
               log_calories := info_calories nutrition_info;
               log_protein := info_protein nutrition_info;
               log_carbs := info_carbs nutrition_info;
               log_fat := info_fat nutrition_info |} in
          (None, log ++ [meal_data])
      end
    else (None, log).

End Tracker.

Arguments cell F : clear implicits.
Arguments DataFrame F : clear implicits.
Arguments MatchResult F : clear implicits.
Arguments Totals F : clear implicits.
Arguments NutritionInfo F : clear implicits.
Arguments LogRow F : clear implicits.
Arguments pyvalue F : clear implicits.

(** The literal search: what [Series.str.contains] computes for a pattern
    that holds no regular-expression operator. *)
Definition literal_contains (pat s : string) : bool := str_in pat s.

(** ** Vocabulary of the statements *)

(** The multiplier table as the specification words it: 1 for [g], 1 for
    [ml], 100 for [piece], 1 for any other unit. *)
Definition spec_unit_multiplier (unit : string) : Z :=
  if String.eqb unit "g" then 1%Z
  else if String.eqb unit "ml" then 1%Z
  else if String.eqb unit "piece" then 100%Z
  else 1%Z.

(** Line 134: the entry passes the query-item filter. *)
Definition passes_filter (query_item : string) (entry : FoodEntry) : bool :=
  str_in (lower query_item) (lower (name entry)).

(** What the aggregator records for an entry it does not skip. *)
Inductive outcome :=
  | Line (text : string)
  | Unmatched (food_name : string).

Definition outcome_line (o : outcome) : option string :=
  match o with
  | Line text => Some text
  | Unmatched _ => None
  end.

Definition outcome_unmatched (o : outcome) : option string :=
  match o with
  | Line _ => None
  | Unmatched food_name => Some food_name
  end.

Section Vocabulary.

Context {F : Type} `{PyFloat F}.
Variable str_contains : string -> string -> bool.

(** The row is selected by the exact pass for the lowered query. *)
Definition is_exact (query : string) (row : gmap string (cell F)) : bool :=
  cell_eq query (cell_str_lower (row !! description_column)).

(** The row is selected by the partial pass for the lowered query. *)
Definition is_partial (query : string) (row : gmap string (cell F)) : bool :=
  match cell_str_lower (row !! description_column) with
  | Some s => str_contains query s
  | None => false
  end.

(** The description cell of the row is a text. *)
Definition has_text (row : gmap string (cell F)) : bool :=
  match row !! description_column with
  | Some (Str _) => true
  | _ => false
  end.

(** The description cell of the row is a text that is not empty. *)
Definition has_nonempty_text (row : gmap string (cell F)) : bool :=
  match row !! description_column with
  | Some (Str s) => negb (String.eqb s "")
  | _ => false
  end.

Definition is_number (c : option (cell F)) : bool :=
  match c with
  | Some (Num _) => true
  | _ => false
  end.

(** A frame as the specification describes the reference table: it has
    the description column, and every row holds a text description and
    four numbers. *)
Definition well_formed (ds : DataFrame F) : bool :=
  bool_decide (description_column ∈ columns ds) &&
  forallb (fun row =>
             has_text row &&
             is_number (row !! energy_column) &&
             is_number (row !! protein_column) &&
             is_number (row !! carbohydrate_column) &&
             is_number (row !! fat_column)) (rows ds).

(** Lines 98-108 on a selected row. *)
Definition match_of_row (kind : match_type) (row : gmap string (cell F))
  : result (MatchResult F) :=
  energy ← get_item row energy_column;
  p ← get_item row protein_column;
  c ← get_item row carbohydrate_column;
  f ← get_item row fat_column;
  d ← get_item row description_column;
  mret {| calories := cell_times_int energy 100;
          protein := cell_times_int p 100;
          carbs := cell_times_int c 100;
          fat := cell_times_int f 100;
          match_kind := kind;
          food_description := Some d |}.

(** The account of one entry that passes the filter, in the words of the
    specification: a breakdown line when the quantity parses and the
    matcher finds a record, its name in the unmatched list when the
    quantity does not parse or the matcher finds nothing. *)
Definition entry_outcome (dataset : DataFrame F) (entry : FoodEntry)
           (o : outcome) : Prop :=
  match o with
  | Unmatched food_name =>
      food_name = name entry /\
      (parse_quantity (F:=F) (quantity entry) = None \/
       (parse_quantity (F:=F) (quantity entry) <> None /\
        exists info,
          find_food_calories str_contains (name entry) dataset = Ok info /\
          match_kind info = NoMatchFound))
  | Line text =>
      exists m unit info d cal pro car ft,
        parse_quantity (quantity entry) = Some (m, unit) /\
        find_food_calories str_contains (name entry) dataset = Ok info /\
        match_kind info <> NoMatchFound /\
        food_description info = Some d /\
        cell_times_float (calories info) (scale_factor m unit) = Ok cal /\
        cell_times_float (protein info) (scale_factor m unit) = Ok pro /\
        cell_times_float (carbs info) (scale_factor m unit) = Ok car /\
        cell_times_float (fat info) (scale_factor m unit) = Ok ft /\
        text = breakdown_entry (cell_text d) (quantity entry) cal pro car ft
  end.

End Vocabulary.

(** ** Sample data *)

Definition nutrient_row (description : string) (energy p c f : Q)
  : gmap string (cell Q) :=
  {[ description_column := Str description;
     energy_column := Num energy;
     protein_column := Num p;
     carbohydrate_column := Num c;
     fat_column := Num f ]}.

(** The row of the worked example of the specification. *)
Definition banana_row : gmap string (cell Q) :=
  nutrient_row "Banana, raw" (89 # 100) (11 # 1000) (23 # 100) (3 # 1000).

Definition banana_dataset : DataFrame Q :=
  {| columns := matcher_columns; rows := [banana_row] |}.

(** A table in which the query [apple] has a partial match in the first
    row and an exact match in the second. *)
Definition apple_dataset : DataFrame Q :=
  {| columns := matcher_columns;
     rows := [ nutrient_row "Apple pie" (265 # 100) (24 # 1000) (37 # 100) (12 # 100);
               nutrient_row "Apple" (52 # 100) (3 # 1000) (14 # 100) (2 # 1000) ] |}.

(** A sheet that has no fat column. *)
Definition fatless_sheet : DataFrame Q :=
  {| columns := [description_column; energy_column; protein_column;
                 carbohydrate_column];
     rows := [ {[ description_column := Str "Banana, raw";
                  energy_column := Num (89 # 100);
                  protein_column := Num (11 # 1000);
                  carbohydrate_column := Num (23 # 100) ]} ] |}.

(** What the matcher returns for the query [banana] on [banana_dataset]. *)
Definition banana_match : MatchResult Q :=
  {| calories := Num (89 # 1); protein := Num (11 # 10); carbs := Num (23 # 1);
     fat := Num (3 # 10); match_kind := Partial;
     food_description := Some (Str "Banana, raw") |}.

(** A sheet that has no description column. *)
Definition nameless_sheet : DataFrame Q :=
  {| columns := [energy_column; protein_column; carbohydrate_column; fat_column];
     rows := [ {[ energy_column := Num (89 # 100);
                  protein_column := Num (11 # 1000);
                  carbohydrate_column := Num (23 # 100);
                  fat_column := Num (3 # 1000) ]} ] |}.

Definition banana_200g : FoodEntry := {| name := "banana"; quantity := "200g" |}.

(** The entry of the second worked example: a name no record holds. *)
Definition unknown_food : FoodEntry := {| name := "xyz123food"; quantity := "100g" |}.

Definition rice_100g : FoodEntry := {| name := "rice"; quantity := "100g" |}.

(** ** Vocabulary of the further statements *)

(** Every character of the string satisfies [p]. *)
Fixpoint all_chars (p : ascii -> bool) (s : string) : bool :=
  match s with
  | EmptyString => true
  | String c r => p c && all_chars p r
  end.

(** A token as [str.split()] returns them: not empty, no blank in it. *)
Definition is_token (s : string) : bool :=
  negb (String.eqb s "") && all_chars (fun c => negb (isspace c)) s.

(** [s.split(sep)] for a separator of one character: the fields between
    the separators, one more than there are separators. *)
Fixpoint split_on (sep : ascii) (s : string) : list string :=
  match s with
  | EmptyString => [EmptyString]
  | String c r =>
      if Ascii.eqb c sep then EmptyString :: split_on sep r
      else
        match split_on sep r with
        | field :: fields => String c field :: fields
        | [] => [String c EmptyString]
        end
  end.

(** The fields of a line of the cleaned file. *)
Definition tab_fields (line : string) : list string :=
  split_on (ascii_of_nat 9) line.

(** The test the cleaner makes of a data row, read off lines 46, 55-62 and
    65: at least six tokens, and the first four of the last five accepted
    by [float]. *)
Definition keeps_row (float_ok : string -> bool) (parts : list string) : bool :=
  (6 <=? length parts)%nat && forallb float_ok (firstn 4 (last_n 5 parts)).

(** ** The session state ([Health_tracker.py], [Health_tracker_1.py])

    The values the two programs keep in the fields of their session
    dictionaries. *)

Inductive pyobj :=
  | PNone
  | PText (s : string)
  | PNumber (n : Z)
  | PList (items : list string).

(** The truth value of an object: [None], the empty text, 0 and the empty
    list are false. *)
Definition truthy (v : pyobj) : bool :=
  match v with
  | PNone => false
  | PText s => negb (String.eqb s "")
  | PNumber n => negb (Z.eqb n 0)
  | PList items => match items with [] => false | _ => true end
  end.

(** [st.session_state]: each key the programs use holds a dictionary of
    fields. *)
Abbreviation session_state := (gmap string (gmap string pyobj)).

(** Lines 9-25 of both files. *)
Definition default_states : list (string * gmap string pyobj) :=
  [ ("user_profile",
     {[ "name" := PText ""; "age" := PNone; "gender" := PText "";
        "height" := PNone; "weight" := PNone;
        "medical_conditions" := PList []; "allergies" := PList [];
        "dietary_restrictions" := PList [] ]});
    ("health_parameters",
     {[ "blood_pressure" := PNone; "sugar_level" := PNone;
        "cholesterol" := PNone ]}) ].

(** Lines 27-29 of both files: a default is stored under a key that the
    state does not have. *)
Definition initialize_session_state (state : session_state) : session_state :=
  fold_left
    (fun st kv =>
       match st !! kv.1 with
       | Some _ => st
       | None => <[kv.1 := kv.2]> st
       end)
    default_states state.

(** [state[key][field]] *)
Definition session_field (state : session_state) (key field : string)
  : result pyobj :=
  match state !! key with
  | None => Err (KeyError key)
  | Some fields =>
      match fields !! field with
      | None => Err (KeyError field)
      | Some v => Ok v
      end
  end.

(** Line 116 of [Health_tracker.py]:
    [not st.session_state['user_profile']['name']], the test that stops the
    tracking page with the warning to set up a profile. *)
Definition profile_missing_0 (state : session_state) : result bool :=
  v ← session_field state "user_profile" "name";
  mret (negb (truthy v)).

(** Line 274 of [Health_tracker_1.py]: the same test behind
    ['user_profile' not in st.session_state or ...]. *)
Definition profile_missing_1 (state : session_state) : result bool :=
  match state !! "user_profile" with
  | None => mret true
  | Some _ =>
      v ← session_field state "user_profile" "name";
      mret (negb (truthy v))
  end.

(** ** Further sample data *)

(** A table whose second row has no description. *)
Definition gappy_dataset : DataFrame Q :=
  {| columns := matcher_columns;
     rows := [ banana_row;
               {[ energy_column := Num (52 # 100);
                  protein_column := Num (3 # 1000);
                  carbohydrate_column := Num (14 # 100);
                  fat_column := Num (2 # 1000) ]} ] |}.

(** A session in which a profile was saved under the name Ada. *)
Definition ada_session : session_state :=
  {[ "user_profile" := {[ "name" := PText "Ada"; "age" := PNumber 36 ]} ]}.

(** ** Binary64

    The floats of Python, on the primitive floats of the kernel: the
    arithmetic is that of the processor, rounding to nearest, ties to
    even, after each operation. *)

Definition float64 : Set := PrimFloat.float.

(** An int operand converted to a float, and [float] of a string of
    digits: the nearest float, ties to even, infinity past the largest. *)
Definition b64_of_int (z : Z) : float64 :=
  FloatOps.SF2Prim
    (SpecFloat.binary_normalize FloatOps.prec FloatOps.emax z 0 false).

(** The number [m * 2 ^ e]. *)
Definition dyadic (m : Z) (e : Z) : Q := Qred (inject_Z m * Qpower 2 e).

Definition sign_text (negative : bool) : string :=
  if negative then "-" else "".

(** [format(x, ".nf")]: the exact value of the float, rounded half to even
    at [digits] decimals. *)
Definition b64_format_fixed (digits : nat) (x : float64) : string :=
  match FloatOps.Prim2SF x with
  | SpecFloat.S754_nan => "nan"
  | SpecFloat.S754_infinity s => sign_text s ++ "inf"
  | SpecFloat.S754_zero s => sign_text s ++ Q_format_fixed digits 0
  | SpecFloat.S754_finite s m e =>
      sign_text s ++ Q_format_fixed digits (dyadic (Zpos m) e)
  end.

(** The largest [k] from [k0] on with [10 ^ k <= v]. *)
Fixpoint log10_floor (fuel : nat) (k : Z) (v : Q) : Z :=
  match fuel with
  | O => k
  | S fuel' =>
      if Qle_bool (Qpower 10 (k + 1)) v then log10_floor fuel' (k + 1)%Z v
      else k
  end.

(** The numbers that round to the float [m * 2 ^ e]: those between the
    midpoints to its two neighbours, the midpoints included when [m] is
    even. *)
Definition rounds_to (m : positive) (e : Z) (d : Q) : bool :=
  let v := dyadic (Zpos m) e in
  let below :=
    if Pos.eqb m (2 ^ 52) && (-1074 <? e)%Z
    then dyadic (2 * Zpos m - 1) (e - 1)
    else dyadic (Zpos m - 1) e in
  let lo := Qred ((below + v) / 2) in
  let hi := Qred ((v + dyadic (Zpos m + 1) e) / 2) in
  if Z.even (Zpos m) then Qle_bool lo d && Qle_bool d hi
  else negb (Qle_bool d lo) && negb (Qle_bool hi d).

(** The shortest decimal [n * 10 ^ ex] that rounds to the float, the
    nearest to it among those of that length: [p] significant digits are
    tried, then [p + 1], up to 17 which always succeed. *)
Fixpoint shortest_decimal (fuel : nat) (p : Z) (k : Z) (m : positive)
    (e : Z) : Z * Z :=
  let v := dyadic (Zpos m) e in
  let ex := (k - p + 1)%Z in
  let scale := Qpower 10 ex in
  let n := Qfloor (v / scale) in
  let below := Qred (inject_Z n * scale) in
  let above := Qred (inject_Z (n + 1) * scale) in
  match fuel with
  | O => (round_half_even (v / scale), ex)
  | S fuel' =>
      match rounds_to m e below, rounds_to m e above with
      | true, true =>
          match Qcompare (v - below) (above - v) with
          | Lt => (n, ex)
          | Gt => ((n + 1)%Z, ex)
          | Eq => (if Z.even n then n else (n + 1)%Z, ex)
          end
      | true, false => (n, ex)
      | false, true => ((n + 1)%Z, ex)
      | false, false => shortest_decimal fuel' (p + 1)%Z k m e
      end
  end.

Fixpoint drop_zeros (fuel : nat) (n : Z) : Z :=
  match fuel with
  | O => n
  | S fuel' =>
      if (0 <? n)%Z && (n mod 10 =? 0)%Z then drop_zeros fuel' (n / 10)%Z
      else n
  end.

(** The digits [ds] with the decimal point after the first [decpt] of
    them, as [repr] lays them out: positional for [-4 < decpt <= 16],
    with an exponent otherwise. *)
Definition repr_layout (ds : string) (decpt : Z) : string :=
  let len := Z.of_nat (String.length ds) in
  if (-4 <? decpt)%Z && (decpt <=? 16)%Z then
    if (decpt <=? 0)%Z then "0." ++ zeros (Z.to_nat (- decpt)) ++ ds
    else if (len <=? decpt)%Z
         then ds ++ zeros (Z.to_nat (decpt - len)) ++ ".0"
         else substring 0 (Z.to_nat decpt) ds ++ "." ++
              substring (Z.to_nat decpt) (Z.to_nat (len - decpt)) ds
  else
    let ex := (decpt - 1)%Z in
    let mantissa :=
      match ds with
      | String c "" => String c ""
      | String c rest => String c ("." ++ rest)
      | "" => ""
      end in
    mantissa ++ "e" ++ (if (ex <? 0)%Z then "-" else "+") ++
    zero_pad 2 (decimal (Z.abs ex)).

(** [str(x)], which is [repr(x)]. *)
Definition b64_to_str (x : float64) : string :=
  match FloatOps.Prim2SF x with
  | SpecFloat.S754_nan => "nan"
  | SpecFloat.S754_infinity s => sign_text s ++ "inf"
  | SpecFloat.S754_zero s => sign_text s ++ "0.0"
  | SpecFloat.S754_finite s m e =>
      let v := dyadic (Zpos m) e in
      let k := log10_floor 640 (-324) v in
      let '(n, ex) := shortest_decimal 16 1 k m e in
      let ds := decimal n in
      sign_text s ++
      repr_layout (decimal (drop_zeros 17 n))
                  (Z.of_nat (String.length ds) + ex)
  end.

#[global] Instance B64_PyFloat : PyFloat float64 := {
  of_int := b64_of_int;
  fadd := PrimFloat.add;
  fmul := PrimFloat.mul;
  fdiv := PrimFloat.div;
  format_fixed := b64_format_fixed;
  to_str := b64_to_str
}.

(** The float nearest to [a / b], for two ints that floats hold exactly:
    the float a decimal literal such as [0.89] denotes. *)
Definition b64_ratio (a b : Z) : float64 :=
  PrimFloat.div (b64_of_int a) (b64_of_int b).

(** The row of the worked example of the specification, in floats:
    0.89, 0.011, 0.23 and 0.003. *)
Definition banana_row_b64 : gmap string (cell float64) :=
  {[ description_column := Str "Banana, raw";
     energy_column := Num (b64_ratio 89 100);
     protein_column := Num (b64_ratio 11 1000);
     carbohydrate_column := Num (b64_ratio 23 100);
     fat_column := Num (b64_ratio 3 1000) ]}.

Definition banana_dataset_b64 : DataFrame float64 :=
  {| columns := matcher_columns; rows := [banana_row_b64] |}.

(** ** Patterns and texts *)

(** The characters that have a meaning in a regular expression. *)
Definition regex_operators : string := ".^$*+?{}[]\|()".

(** A pattern without any of them: it compiles, and the search for it is
    the search for the text itself. *)
Definition plain_pattern (pat : string) : bool :=
  all_chars (fun c => negb (str_in (String c "") regex_operators)) pat.

(** [str.isascii] *)
Definition isascii (s : string) : bool :=
  all_chars (fun c => (nat_of_ascii c <? 128)%nat) s.

(** A sheet that has no fat column and whose second row has no
    description. *)
Definition gappy_fatless_sheet : DataFrame Q :=
  {| columns := [description_column; energy_column; protein_column;
                 carbohydrate_column];
     rows := [ {[ description_column := Str "Banana, raw";
                  energy_column := Num (89 # 100);
                  protein_column := Num (11 # 1000);
                  carbohydrate_column := Num (23 # 100) ]};
               {[ energy_column := Num (52 # 100);
                  protein_column := Num (3 # 1000);
                  carbohydrate_column := Num (14 # 100) ]} ] |}.

(** * Properties *)

(** ** The cleaner *)

Section CleanerFacts.

Variable float_ok : string -> bool.

Lemma scan_numeric_all (c : list string) :
  forallb float_ok c = true -> scan_numeric float_ok c = c.
Proof.
  induction c as [|p c IH]; simpl; [reflexivity|].
  intros Hall. apply andb_true_iff in Hall as [Hp Hc].
  rewrite Hp. f_equal. auto.
Qed.

Lemma scan_numeric_full (c : list string) :
  length (scan_numeric float_ok c) = length c -> forallb float_ok c = true.
Proof.
  induction c as [|p c IH]; simpl; [reflexivity|].
  destruct (float_ok p); simpl; [|discriminate].
  intros Hlen. apply IH. lia.
Qed.

(** The scan returns a prefix of accepted tokens, and the token after the
    prefix, when there is one, is rejected. *)
Lemma scan_numeric_prefix (c : list string) :
  exists rest,
    c = scan_numeric float_ok c ++ rest /\
    forallb float_ok (scan_numeric float_ok c) = true /\
    match rest with
    | [] => True
    | tok :: _ => float_ok tok = false
    end.
Proof.
  induction c as [|p c (rest & Hc & Hall & Hnext)]; simpl.
  - exists []. auto.
  - destruct (float_ok p) eqn:Hp.
    + exists rest. simpl. rewrite Hp, Hall. split; [congruence | auto].
    + exists (p :: c). auto.
Qed.

Lemma scan_numeric_firstn (k : nat) (c : list string) :
  scan_numeric float_ok (firstn k c) = firstn k (scan_numeric float_ok c).
Proof.
  revert k. induction c as [|p c IH]; intros [|k]; simpl; try reflexivity.
  destruct (float_ok p); simpl; [f_equal; apply IH | reflexivity].
Qed.

Lemma last_n_length {A} (k : nat) (l : list A) :
  (k <= length l)%nat -> length (last_n k l) = k.
Proof. intros Hk. unfold last_n. rewrite length_skipn. lia. Qed.

Lemma last_n_split {A} (k : nat) (l : list A) :
  l = firstn (length l - k) l ++ last_n k l.
Proof. unfold last_n. symmetry. apply firstn_skipn. Qed.

Lemma rev_last_n {A} (k : nat) (l : list A) :
  rev (last_n k l) = firstn k (rev l).
Proof.
  unfold last_n. destruct (Nat.le_gt_cases k (length l)) as [Hk|Hk].
  - rewrite firstn_rev. reflexivity.
  - replace (length l - k)%nat with 0%nat by lia. simpl.
    rewrite firstn_all2; [reflexivity | rewrite length_rev; lia].
Qed.

Lemma five_tokens {A} (l : list A) :
  length l = 5%nat -> exists a b c d e, l = [a; b; c; d; e].
Proof.
  destruct l as [|a [|b [|c [|d [|e [|x l]]]]]]; simpl; try discriminate.
  intros _. eauto 6.
Qed.

(** The run read from the right is what the whole row ends in, cut at
    five tokens. *)
Lemma spec_right_run_trailing (parts : list string) :
  spec_right_run float_ok parts = rev (firstn 5 (rev (trailing_run float_ok parts))).
Proof.
  unfold spec_right_run, trailing_run.
  rewrite rev_last_n, scan_numeric_firstn, rev_involutive. reflexivity.
Qed.

Lemma forallb_rev {A} (f : A -> bool) (l : list A) :
  forallb f (rev l) = forallb f l.
Proof.
  induction l as [|x l IH]; [reflexivity|].
  cbn [rev forallb]. rewrite forallb_app, IH. cbn [forallb].
  rewrite andb_true_r. apply andb_comm.
Qed.

(** The run of the specification is the longest suffix of accepted tokens
    of the last five tokens: its tokens are accepted, and the token to its
    left, when there is one among the five, is rejected. *)
Lemma spec_right_run_maximal (parts : list string) :
  exists left,
    last_n 5 parts = left ++ spec_right_run float_ok parts /\
    forallb float_ok (spec_right_run float_ok parts) = true /\
    match rev left with
    | [] => True
    | tok :: _ => float_ok tok = false
    end.
Proof.
  unfold spec_right_run.
  destruct (scan_numeric_prefix (rev (last_n 5 parts)))
    as (rest & Hsplit & Hall & Hnext).
  exists (rev rest). rewrite forallb_rev, rev_involutive.
  split; [|auto].
  rewrite <- rev_app_distr, <- Hsplit, rev_involutive. reflexivity.
Qed.

Lemma spec_right_run_full (parts : list string) :
  (5 <= length parts)%nat ->
  length (spec_right_run float_ok parts) = 5%nat ->
  forallb float_ok (last_n 5 parts) = true /\
  spec_right_run float_ok parts = last_n 5 parts.
Proof.
  intros Hlen Hrun. unfold spec_right_run in *.
  rewrite length_rev in Hrun.
  assert (Hall : forallb float_ok (rev (last_n 5 parts)) = true).
  { apply scan_numeric_full. rewrite Hrun, length_rev.
    symmetry. apply last_n_length. exact Hlen. }
  split.
  - apply forallb_forall. intros tok Hin.
    eapply forallb_forall in Hall; [exact Hall|].
    apply in_rev in Hin. exact Hin.
  - rewrite (scan_numeric_all _ Hall). apply rev_involutive.
Qed.

Lemma split_row_all_numeric (parts : list string) :
  (6 <= length parts)%nat ->
  forallb float_ok (last_n 5 parts) = true ->
  split_row float_ok parts =
    Some (firstn (length parts - 5) parts, last_n 5 parts).
Proof.
  intros Hlen Hall. unfold split_row.
  destruct (Nat.ltb_spec (length parts) 6) as [Hlt|_]; [lia|].
  rewrite (scan_numeric_all _ Hall), last_n_length by lia.
  reflexivity.
Qed.

Lemma split_row_short (parts : list string) :
  (length parts < 6)%nat -> split_row float_ok parts = None.
Proof.
  intros Hlen. unfold split_row.
  destruct (Nat.ltb_spec (length parts) 6) as [_|Hge]; [reflexivity | lia].
Qed.

(** A right run of one to three tokens among five: the left scan stops
    before its fourth token. *)
Lemma left_scan_short (c : list string) :
  length c = 5%nat ->
  (1 <= length (rev (scan_numeric float_ok (rev c))) <= 3)%nat ->
  (length (scan_numeric float_ok c) < 4)%nat.
Proof.
  intros Hlen. destruct (five_tokens c Hlen) as (t1 & t2 & t3 & t4 & t5 & ->).
  rewrite length_rev. simpl.
  destruct (float_ok t1), (float_ok t2), (float_ok t3), (float_ok t4),
    (float_ok t5); simpl; lia.
Qed.

Lemma split_row_short_run (parts : list string) :
  (6 <= length parts)%nat ->
  (1 <= length (spec_right_run float_ok parts) <= 3)%nat ->
  split_row float_ok parts = None.
Proof.
  intros Hlen Hrun. unfold split_row.
  destruct (Nat.ltb_spec (length parts) 6) as [Hlt|_]; [lia|].
  pose proof (left_scan_short (last_n 5 parts)
                (last_n_length 5 parts ltac:(lia)) Hrun) as Hshort.
  destruct (Nat.ltb_spec (length (scan_numeric float_ok (last_n 5 parts))) 4);
    [reflexivity | lia].
Qed.

End CleanerFacts.

Section CleanerClaims.

Variable float_ok : string -> bool.

Lemma clean_row_dropped (line : string) :
  split_row float_ok (tokens line) = None -> clean_row float_ok line = None.
Proof. unfold clean_row. intros ->. reflexivity. Qed.

(** C7.  A file whose data rows are each a description followed by five
    tokens that parse as floats, that is, rows of at least six tokens the
    last five of which [float] accepts, keeps every row, in order; a row
    that ends in a run of exactly three numeric tokens is dropped, and the
    output is that of the file without the row. *)
Theorem clean_keeps_rows_of_five (header : string) (data : list string) :
  (Forall (fun line =>
             (6 <= length (tokens line))%nat /\
             forallb float_ok (last_n 5 (tokens line)) = true) data ->
   clean_food_dataset float_ok (header :: data) =
     Some (clean_header (strip header) ::
           map (fun line =>
                  format_row (firstn (length (tokens line) - 5) (tokens line))
                             (last_n 5 (tokens line))) data)) /\
  (forall before line after,
     data = before ++ line :: after ->
     length (trailing_run float_ok (tokens line)) = 3%nat ->
     clean_row float_ok line = None /\
     clean_food_dataset float_ok (header :: data) =
       clean_food_dataset float_ok (header :: before ++ after)).
Proof.
  split.
  - intros Hrows. unfold clean_food_dataset. do 2 f_equal.
    induction Hrows as [|line data [Hlen Hall] _ IH]; [reflexivity|].
    assert (Hrow : clean_row float_ok line =
              Some (format_row (firstn (length (tokens line) - 5) (tokens line))
                               (last_n 5 (tokens line)))).
    { unfold clean_row.
      rewrite (split_row_all_numeric float_ok _ Hlen Hall). reflexivity. }
    cbn [omap list_omap map]. rewrite Hrow, <- IH. reflexivity.
  - intros before line after -> Hrun.
    assert (Hdrop : clean_row float_ok line = None).
    { apply clean_row_dropped.
      destruct (Nat.lt_ge_cases (length (tokens line)) 6) as [Hlt|Hge].
      - apply split_row_short. exact Hlt.
      - apply split_row_short_run; [exact Hge|].
        rewrite spec_right_run_trailing, length_rev, length_firstn, length_rev.
        rewrite Hrun. simpl. lia. }
    split; [exact Hdrop|].
    unfold clean_food_dataset. rewrite !omap_app.
    cbn [omap list_omap]. rewrite Hdrop. reflexivity.
Qed.

End CleanerClaims.

(** C1.  The code scans the last five tokens from the left and stops at
    the first one [float] rejects (lines 55-62), where the comments of
    lines 50 and 69, and the specification, take the numeric tokens at the
    right end of the row.  On the row [Apple pie, slice 52 0.3 14 0.2] the
    run at the right end has four tokens, the row would be kept with the
    description [Apple_pie,_slice], and the code discards it.  On the row
    [Milk 61 3.2 4.8 3.3 n/a] the run at the right end is empty, the row
    would be discarded, and the code keeps it, with the four tokens after
    [Milk] as numeric fields and the first of them in the description as
    well. *)
Theorem left_scan_is_not_right_run :
  (spec_right_run py_float_ok (tokens "Apple pie, slice 52 0.3 14 0.2") =
     ["52"; "0.3"; "14"; "0.2"] /\
   spec_split_row py_float_ok (tokens "Apple pie, slice 52 0.3 14 0.2") =
     Some (["Apple"; "pie,"; "slice"], ["52"; "0.3"; "14"; "0.2"]) /\
   clean_row py_float_ok "Apple pie, slice 52 0.3 14 0.2" = None) /\
  (spec_right_run py_float_ok (tokens "Milk 61 3.2 4.8 3.3 n/a") = [] /\
   spec_split_row py_float_ok (tokens "Milk 61 3.2 4.8 3.3 n/a") = None /\
   clean_row py_float_ok "Milk 61 3.2 4.8 3.3 n/a" =
     Some ("Milk_61" ++ tab ++ join tab ["61"; "3.2"; "4.8"; "3.3"])%string).
Proof. repeat split; vm_compute; reflexivity. Qed.

(** C7, witness: a file of two rows of five numeric fields, then a file
    with a row that ends in three numeric tokens. *)
Lemma clean_keeps_rows_of_five_witness :
  clean_food_dataset py_float_ok
    ["food e p c f s"; "Apple pie 52 0.3 14 0.2 2.4"; "Milk 61 3.2 4.8 3.3 5"] =
    Some [join tab ["food"; "e"; "p"; "c"; "f"; "s"];
          ("Apple_pie" ++ tab ++ join tab ["52"; "0.3"; "14"; "0.2"; "2.4"])%string;
          ("Milk" ++ tab ++ join tab ["61"; "3.2"; "4.8"; "3.3"; "5"])%string] /\
  clean_row py_float_ok "Apple pie, with 2 scoops 52 0.3 14" = None.
Proof.
  split.
  - apply (proj1 (clean_keeps_rows_of_five py_float_ok "food e p c f s"
             ["Apple pie 52 0.3 14 0.2 2.4"; "Milk 61 3.2 4.8 3.3 5"])).
    apply Forall_cons. split; [split; [vm_compute; lia | vm_compute; reflexivity]|].
    apply Forall_cons. split; [split; [vm_compute; lia | vm_compute; reflexivity]|].
    constructor.
  - apply (proj2 (clean_keeps_rows_of_five py_float_ok "food e p c f s"
             ["Apple pie, with 2 scoops 52 0.3 14"])
             [] "Apple pie, with 2 scoops 52 0.3 14" []).
    + reflexivity.
    + vm_compute. reflexivity.
Defined.

(** ** The matcher *)

Lemma match_type_cases (kind : match_type) :
  kind = NoMatchFound \/ kind <> NoMatchFound.
Proof. destruct kind; [right; discriminate | right; discriminate | left; reflexivity]. Qed.

Section MatcherFacts.

Context {F : Type} `{PyFloat F}.
Variable str_contains : string -> string -> bool.

Local Abbreviation row := (gmap string (cell F)).

Lemma mask_rows_map (f : row -> bool) (rs : list row) :
  mask_rows (map f rs) rs = filter (fun r => Is_true (f r)) rs.
Proof.
  unfold mask_rows. induction rs as [|r rs IH]; [reflexivity|].
  cbn [map zip zip_with]. rewrite !filter_cons. cbn [fst].
  destruct (decide (Is_true (f r))); cbn [map snd]; rewrite IH; reflexivity.
Qed.

Lemma contains_mask_rows (query : string) (rs : list row) :
  contains_mask str_contains query
    (map cell_str_lower (map (fun r : row => r !! description_column) rs)) =
  if forallb has_text rs
  then Ok (map (is_partial str_contains query) rs)
  else Err ValueError.
Proof.
  induction rs as [|r rs IH]; [reflexivity|].
  cbn [map contains_mask forallb]. unfold has_text at 1, is_partial at 1.
  destruct (r !! description_column) as [[s|x]|]; cbn; try reflexivity.
  rewrite IH. destruct (forallb has_text rs); reflexivity.
Qed.

(** The matcher, read off its two filters. *)
Lemma find_food_calories_unfold (food_name : string) (dataset : DataFrame F) :
  find_food_calories str_contains food_name dataset =
  if bool_decide (description_column ∈ columns dataset) then
    match filter (fun r => Is_true (is_exact (lower food_name) r)) (rows dataset) with
    | r :: _ => match_of_row Exact r
    | [] =>
        if forallb has_text (rows dataset) then
          match filter (fun r => Is_true (is_partial str_contains (lower food_name) r))
                       (rows dataset) with
          | r :: _ => match_of_row Partial r
          | [] => Ok no_match_found
          end
        else Err ValueError
    end
  else Err (KeyError description_column).
Proof.
  unfold find_food_calories, get_column.
  destruct (bool_decide (description_column ∈ columns dataset)); [|reflexivity].
  cbn [mbind result_bind].
  rewrite !map_map.
  change (map (fun x : row => cell_eq (lower food_name)
                 (cell_str_lower (x !! description_column))) (rows dataset))
    with (map (is_exact (lower food_name)) (rows dataset)).
  rewrite mask_rows_map.
  destruct (filter (fun r => Is_true (is_exact (lower food_name) r))
                   (rows dataset)) as [|r matches].
  - cbn [length Nat.eqb].
    rewrite <- (map_map (fun r : row => r !! description_column) cell_str_lower).
    rewrite contains_mask_rows.
    destruct (forallb has_text (rows dataset)); [|reflexivity].
    cbn [mbind result_bind]. rewrite mask_rows_map.
    destruct (filter (fun r => Is_true (is_partial str_contains (lower food_name) r))
                     (rows dataset)) as [|r matches]; reflexivity.
  - reflexivity.
Qed.

Lemma match_of_row_ok (kind : match_type) (r : row) (e p c f d : cell F) :
  r !! energy_column = Some e ->
  r !! protein_column = Some p ->
  r !! carbohydrate_column = Some c ->
  r !! fat_column = Some f ->
  r !! description_column = Some d ->
  match_of_row kind r =
    Ok {| calories := cell_times_int e 100;
          protein := cell_times_int p 100;
          carbs := cell_times_int c 100;
          fat := cell_times_int f 100;
          match_kind := kind;
          food_description := Some d |}.
Proof.
  intros He Hp Hc Hf Hd. unfold match_of_row, get_item.
  rewrite He, Hp, Hc, Hf, Hd. reflexivity.
Qed.

(** What a successful [match_of_row] holds. *)
Lemma match_of_row_inv (kind : match_type) (r : row) (m : MatchResult F) :
  match_of_row kind r = Ok m ->
  exists e p c f d,
    r !! energy_column = Some e /\
    r !! protein_column = Some p /\
    r !! carbohydrate_column = Some c /\
    r !! fat_column = Some f /\
    r !! description_column = Some d /\
    m = {| calories := cell_times_int e 100;
           protein := cell_times_int p 100;
           carbs := cell_times_int c 100;
           fat := cell_times_int f 100;
           match_kind := kind;
           food_description := Some d |}.
Proof.
  unfold match_of_row, get_item.
  destruct (r !! energy_column) as [e|]; [|discriminate].
  destruct (r !! protein_column) as [p|]; [|discriminate].
  destruct (r !! carbohydrate_column) as [c|]; [|discriminate].
  destruct (r !! fat_column) as [f|]; [|discriminate].
  destruct (r !! description_column) as [d|]; [|discriminate].
  cbn. intros [= <-]. exists e, p, c, f, d. auto 10.
Qed.

Lemma is_exact_text (query : string) (r : row) :
  is_exact query r = true ->
  exists d, r !! description_column = Some (Str d) /\ lower d = query.
Proof.
  unfold is_exact. destruct (r !! description_column) as [[d|x]|]; cbn;
    try discriminate.
  intros Heq. apply String.eqb_eq in Heq. eauto.
Qed.

Lemma is_partial_text (query : string) (r : row) :
  is_partial str_contains query r = true ->
  exists d, r !! description_column = Some (Str d) /\
            str_contains query (lower d) = true.
Proof.
  unfold is_partial. destruct (r !! description_column) as [[d|x]|]; cbn;
    try discriminate.
  eauto.
Qed.

(** The head of a filter is the first element that satisfies the
    predicate. *)
Lemma filter_first {A} (P : A -> Prop) `{forall x, Decision (P x)}
      (before : list A) (x : A) (after : list A) :
  Forall (fun y => ~ P y) before -> P x ->
  filter P (before ++ x :: after) = x :: filter P after.
Proof.
  intros Hbefore Hx. rewrite filter_app, filter_cons_True by exact Hx.
  induction Hbefore as [|y before Hy _ IH]; [reflexivity|].
  rewrite filter_cons_False by exact Hy. exact IH.
Qed.

Lemma filter_head_in {A} (P : A -> Prop) `{forall x, Decision (P x)}
      (l : list A) (x : A) (rest : list A) :
  filter P l = x :: rest -> x ∈ l /\ P x.
Proof.
  intros Hfilter.
  assert (Hin : x ∈ filter P l) by (rewrite Hfilter; left).
  apply list_elem_of_filter in Hin. tauto.
Qed.

End MatcherFacts.

(** Membership in a list that is written out. *)
Ltac list_member :=
  repeat first [apply list_elem_of_here | apply list_elem_of_further].

Section MatcherClaims.

Context {F : Type} `{PyFloat F}.

Local Abbreviation row := (gmap string (cell F)).

(** Every record the matcher returns is a row of the table, selected
    through the text of its description, with its four nutrient cells
    multiplied by 100. *)
Lemma find_food_calories_matched (str_contains : string -> string -> bool)
      (food_name : string) (dataset : DataFrame F) (m : MatchResult F) :
  find_food_calories str_contains food_name dataset = Ok m ->
  match_kind m <> NoMatchFound ->
  exists r d e p c f,
    r ∈ rows dataset /\
    r !! description_column = Some (Str d) /\
    (lower d = lower food_name \/
     str_contains (lower food_name) (lower d) = true) /\
    r !! energy_column = Some e /\
    r !! protein_column = Some p /\
    r !! carbohydrate_column = Some c /\
    r !! fat_column = Some f /\
    calories m = cell_times_int e 100 /\
    protein m = cell_times_int p 100 /\
    carbs m = cell_times_int c 100 /\
    fat m = cell_times_int f 100 /\
    food_description m = Some (Str d).
Proof.
  rewrite find_food_calories_unfold.
  destruct (bool_decide _); [|discriminate].
  destruct (filter (fun r => Is_true (is_exact (lower food_name) r))
                   (rows dataset)) as [|r matches] eqn:Hexact.
  - destruct (forallb has_text (rows dataset)); [|discriminate].
    destruct (filter (fun r => Is_true (is_partial str_contains (lower food_name) r))
                     (rows dataset)) as [|r matches] eqn:Hpartial.
    + intros Hm Hkind. injection Hm as <-. contradiction Hkind. reflexivity.
    + intros Hm _.
      apply filter_head_in in Hpartial as [Hin Hsel].
      apply Is_true_true, is_partial_text in Hsel as (d & Hd & Hsub).
      apply match_of_row_inv in Hm
        as (e & p & c & f & d' & He & Hp & Hc & Hf & Hd' & ->).
      rewrite Hd in Hd'. injection Hd' as <-.
      exists r, d, e, p, c, f. cbn. auto 15.
  - intros Hm _.
    apply filter_head_in in Hexact as [Hin Hsel].
    apply Is_true_true, is_exact_text in Hsel as (d & Hd & Heq).
    apply match_of_row_inv in Hm
      as (e & p & c & f & d' & He & Hp & Hc & Hf & Hd' & ->).
    rewrite Hd in Hd'. injection Hd' as <-.
    exists r, d, e, p, c, f. cbn. auto 15.
Qed.

(** A query that the exact pass or the partial pass selects a row for
    gets a match, when the rows hold the four nutrient cells. *)
Lemma find_food_calories_returns_match (str_contains : string -> string -> bool)
      (food_name : string) (dataset : DataFrame F) :
  description_column ∈ columns dataset ->
  (forall r, r ∈ rows dataset ->
     is_Some (r !! energy_column) /\ is_Some (r !! protein_column) /\
     is_Some (r !! carbohydrate_column) /\ is_Some (r !! fat_column)) ->
  (exists r d, r ∈ rows dataset /\
               r !! description_column = Some (Str d) /\
               lower d = lower food_name) \/
  (forallb has_text (rows dataset) = true /\
   exists r d, r ∈ rows dataset /\
               r !! description_column = Some (Str d) /\
               str_contains (lower food_name) (lower d) = true) ->
  exists m,
    find_food_calories str_contains food_name dataset = Ok m /\
    match_kind m <> NoMatchFound.
Proof.
  intros Hcol Hcells Hsel.
  assert (Hrow : forall kind r,
             kind <> NoMatchFound ->
             r ∈ rows dataset ->
             (exists d, r !! description_column = Some (Str d)) ->
             exists m, match_of_row kind r = Ok m /\ match_kind m <> NoMatchFound).
  { intros kind r Hkind Hr [d Hd].
    destruct (Hcells r Hr) as ([e He] & [p Hp] & [c Hc] & [f Hf]).
    eexists. split; [apply (match_of_row_ok kind r e p c f (Str d)); assumption|].
    exact Hkind. }
  rewrite find_food_calories_unfold, bool_decide_eq_true_2 by exact Hcol.
  destruct (filter (fun r => Is_true (is_exact (lower food_name) r))
                   (rows dataset)) as [|r0 matches] eqn:Hexact.
  - destruct Hsel as [(r & d & Hr & Hd & Heq) | (Htexts & r & d & Hr & Hd & Hsub)].
    + assert (Hr' : r ∈ filter (fun r => Is_true (is_exact (lower food_name) r))
                               (rows dataset)).
      { apply list_elem_of_filter. split; [|exact Hr].
        unfold is_exact. rewrite Hd. cbn. rewrite Heq.
        apply Is_true_true, String.eqb_refl. }
      rewrite Hexact in Hr'. inversion Hr'.
    + rewrite Htexts.
      destruct (filter
                  (fun r => Is_true (is_partial str_contains (lower food_name) r))
                  (rows dataset)) as [|r1 matches] eqn:Hpartial.
      * assert (Hr' : r ∈ filter
                    (fun r => Is_true (is_partial str_contains (lower food_name) r))
                    (rows dataset)).
        { apply list_elem_of_filter. split; [|exact Hr].
          unfold is_partial. rewrite Hd. cbn. rewrite Hsub. exact I. }
        rewrite Hpartial in Hr'. inversion Hr'.
      * apply filter_head_in in Hpartial as [Hr1 Hsel1].
        apply Is_true_true, is_partial_text in Hsel1 as (d1 & Hd1 & _).
        apply Hrow; [discriminate | exact Hr1 | eauto].
  - apply filter_head_in in Hexact as [Hr0 Hsel0].
    apply Is_true_true, is_exact_text in Hsel0 as (d0 & Hd0 & _).
    apply Hrow; [discriminate | exact Hr0 | eauto].
Qed.

(** C4.  When some description equals the query, both lowered, the
    matcher returns the first such row as an exact match, whatever the
    partial search would select: the result does not depend on
    [str_contains]. *)
Theorem exact_match_takes_precedence
        (str_contains : string -> string -> bool)
        (food_name : string) (dataset : DataFrame F)
        (before : list row) (r : row) (after : list row) (d : string) :
  description_column ∈ columns dataset ->
  rows dataset = before ++ r :: after ->
  r !! description_column = Some (Str d) ->
  lower d = lower food_name ->
  (forall r' d', r' ∈ before ->
                 r' !! description_column = Some (Str d') ->
                 lower d' <> lower food_name) ->
  find_food_calories str_contains food_name dataset = match_of_row Exact r /\
  (forall e p c f,
     r !! energy_column = Some e ->
     r !! protein_column = Some p ->
     r !! carbohydrate_column = Some c ->
     r !! fat_column = Some f ->
     find_food_calories str_contains food_name dataset =
       Ok {| calories := cell_times_int e 100;
             protein := cell_times_int p 100;
             carbs := cell_times_int c 100;
             fat := cell_times_int f 100;
             match_kind := Exact;
             food_description := Some (Str d) |}).
Proof.
  intros Hcol Hrows Hd Heq Hbefore.
  assert (Hfind : find_food_calories str_contains food_name dataset =
                  match_of_row Exact r).
  { rewrite find_food_calories_unfold, bool_decide_eq_true_2 by exact Hcol.
    rewrite Hrows, filter_first; [reflexivity| |].
    - apply Forall_forall. intros r' Hin Hsel.
      apply Is_true_true, is_exact_text in Hsel as (d' & Hd' & Heq').
      exact (Hbefore r' d' Hin Hd' Heq').
    - unfold is_exact. rewrite Hd. cbn. rewrite Heq.
      apply Is_true_true, String.eqb_refl. }
  split; [exact Hfind|].
  intros e p c f He Hp Hc Hf. rewrite Hfind.
  apply match_of_row_ok; assumption.
Qed.

Lemma no_exact_match_for_empty_query (rs : list row) :
  Forall (fun r' => has_nonempty_text r' = true) rs ->
  filter (fun r' => Is_true (is_exact (lower "") r')) rs = [].
Proof.
  induction 1 as [|r' rs Hr' _ IH]; [reflexivity|].
  rewrite filter_cons_False; [exact IH|].
  unfold is_exact, has_nonempty_text in *.
  destruct (r' !! description_column) as [[s|x]|]; cbn in *;
    try discriminate.
  destruct s; [discriminate | cbn; tauto].
Qed.

(** C10.  On a table that is not empty and whose descriptions are texts,
    none of them empty, the empty query gets the first row as a partial
    match, for every search that finds the empty pattern in every text. *)
Theorem empty_query_selects_first_row
        (str_contains : string -> string -> bool)
        (dataset : DataFrame F) (r : row) (rest : list row) :
  (forall s, str_contains "" s = true) ->
  description_column ∈ columns dataset ->
  rows dataset = r :: rest ->
  Forall (fun r' => has_nonempty_text r' = true) (rows dataset) ->
  find_food_calories str_contains "" dataset = match_of_row Partial r /\
  find_food_calories str_contains "" dataset <> Ok no_match_found /\
  (forall e p c f d,
     r !! energy_column = Some e ->
     r !! protein_column = Some p ->
     r !! carbohydrate_column = Some c ->
     r !! fat_column = Some f ->
     r !! description_column = Some d ->
     find_food_calories str_contains "" dataset =
       Ok {| calories := cell_times_int e 100;
             protein := cell_times_int p 100;
             carbs := cell_times_int c 100;
             fat := cell_times_int f 100;
             match_kind := Partial;
             food_description := Some d |}).
Proof.
  intros Hempty Hcol Hrows Htexts.
  assert (Hnone : filter (fun r' => Is_true (is_exact (lower "") r'))
                         (rows dataset) = []).
  { apply (no_exact_match_for_empty_query _ Htexts). }
  assert (Hall : forallb has_text (rows dataset) = true).
  { apply forallb_forall. intros r' Hin.
    rewrite Forall_forall in Htexts.
    apply list_elem_of_In, Htexts in Hin.
    unfold has_nonempty_text, has_text in *.
    destruct (r' !! description_column) as [[s|x]|]; congruence. }
  assert (Hfirst : is_partial str_contains (lower "") r = true).
  { rewrite Hrows in Htexts. apply Forall_cons in Htexts as [Hr _].
    unfold is_partial, has_nonempty_text in *.
    destruct (r !! description_column) as [[s|x]|]; try discriminate.
    cbn. apply Hempty. }
  assert (Hfind : find_food_calories str_contains "" dataset =
                  match_of_row Partial r).
  { rewrite find_food_calories_unfold, bool_decide_eq_true_2 by exact Hcol.
    rewrite Hnone, Hall, Hrows, filter_cons_True; [reflexivity|].
    apply Is_true_true. exact Hfirst. }
  split; [exact Hfind|]. split.
  - rewrite Hfind. intros Hm.
    apply match_of_row_inv in Hm as (? & ? & ? & ? & ? & _ & _ & _ & _ & _ & Hm).
    discriminate Hm.
  - intros e p c f d He Hp Hc Hf Hd. rewrite Hfind.
    apply match_of_row_ok; assumption.
Qed.

Lemma match_of_row_missing (kind : match_type) (r : row) (missing : string) :
  missing ∈ [energy_column; protein_column; carbohydrate_column; fat_column] ->
  r !! missing = None ->
  exists key,
    key ∈ [energy_column; protein_column; carbohydrate_column; fat_column] /\
    match_of_row kind r = Err (KeyError key).
Proof.
  intros Hin Hmissing. unfold match_of_row, get_item.
  destruct (r !! energy_column) eqn:He;
    [|exists energy_column; split; [list_member | reflexivity]].
  destruct (r !! protein_column) eqn:Hp;
    [|exists protein_column; split; [list_member | reflexivity]].
  destruct (r !! carbohydrate_column) eqn:Hc;
    [|exists carbohydrate_column; split; [list_member | reflexivity]].
  destruct (r !! fat_column) eqn:Hf;
    [|exists fat_column; split; [list_member | reflexivity]].
  exfalso.
  repeat (apply elem_of_cons in Hin as [->|Hin]; [congruence|]).
  inversion Hin.
Qed.

Lemma loaded_row_lacks (sheet : DataFrame F) (r : row) (label : string) :
  label ∉ columns sheet ->
  r ∈ rows (load_food_dataset sheet) ->
  r !! label = None.
Proof.
  intros Hlabel Hin. unfold load_food_dataset, select_columns in Hin.
  cbn [rows] in Hin. apply list_elem_of_fmap in Hin as (r0 & -> & _).
  apply map_lookup_filter_None. right. intros x _ Hkeep. cbn [fst] in Hkeep.
  apply list_elem_of_filter in Hkeep as [Hkeep _]. contradiction.
Qed.


End MatcherClaims.




(** C4, witness: the query [apple] on a table whose first row holds it
    as a part and whose second row equals it. *)
Lemma exact_match_takes_precedence_witness :
  find_food_calories literal_contains "apple" apple_dataset =
    Ok {| calories := Num (52 # 1); protein := Num (3 # 10); carbs := Num (14 # 1);
          fat := Num (1 # 5); match_kind := Exact;
          food_description := Some (Str "Apple") |}.
Proof.
  refine (proj2 (exact_match_takes_precedence literal_contains "apple"
                   apple_dataset
                   [nutrient_row "Apple pie" (265 # 100) (24 # 1000) (37 # 100) (12 # 100)]
                   (nutrient_row "Apple" (52 # 100) (3 # 1000) (14 # 100) (2 # 1000))
                   [] "Apple" _ _ _ _ _)
                (Num (52 # 100)) (Num (3 # 1000)) (Num (14 # 100))
                (Num (2 # 1000)) _ _ _ _).
  - unfold apple_dataset, matcher_columns. cbn [columns]. list_member.
  - reflexivity.
  - vm_compute. reflexivity.
  - vm_compute. reflexivity.
  - intros r' d' Hin Hd. apply list_elem_of_singleton in Hin. subst r'.
    vm_compute in Hd. injection Hd as <-. vm_compute. discriminate.
  - vm_compute. reflexivity.
  - vm_compute. reflexivity.
  - vm_compute. reflexivity.
  - vm_compute. reflexivity.
Defined.



(** C10, witness: the empty query on the table of the worked example,
    with the literal search. *)
Lemma empty_query_selects_first_row_witness :
  find_food_calories literal_contains "" banana_dataset =
    match_of_row Partial banana_row /\
  find_food_calories literal_contains "" banana_dataset <> Ok no_match_found /\
  (forall e p c f d,
     banana_row !! energy_column = Some e ->
     banana_row !! protein_column = Some p ->
     banana_row !! carbohydrate_column = Some c ->
     banana_row !! fat_column = Some f ->
     banana_row !! description_column = Some d ->
     find_food_calories literal_contains "" banana_dataset =
       Ok {| calories := cell_times_int e 100;
             protein := cell_times_int p 100;
             carbs := cell_times_int c 100;
             fat := cell_times_int f 100;
             match_kind := Partial;
             food_description := Some d |}).
Proof.
  apply (empty_query_selects_first_row literal_contains banana_dataset
           banana_row []).
  - intros s. destruct s; reflexivity.
  - unfold banana_dataset, matcher_columns. cbn [columns]. list_member.
  - reflexivity.
  - apply Forall_cons. split; [vm_compute; reflexivity | constructor].
Defined.

(** ** The aggregator *)

Section AggregatorFacts.

Context {F : Type} `{PyFloat F}.
Variable str_contains : string -> string -> bool.

Local Abbreviation row := (gmap string (cell F)).

Lemma unit_multiplier_table (unit : string) :
  unit_multiplier unit = spec_unit_multiplier unit.
Proof.
  unfold unit_multiplier, unit_multipliers, spec_unit_multiplier.
  destruct (String.eqb_spec unit "g") as [->|Hg]; [reflexivity|].
  destruct (String.eqb_spec unit "ml") as [->|Hml]; [reflexivity|].
  destruct (String.eqb_spec unit "piece") as [->|Hpiece]; [reflexivity|].
  rewrite !lookup_insert_ne by congruence.
  rewrite lookup_singleton_ne by congruence. reflexivity.
Qed.

Lemma process_entries_app (query : string) (dataset : DataFrame F)
      (acc : Totals F) (es1 es2 : list FoodEntry) :
  process_entries str_contains query dataset acc (es1 ++ es2) =
  process_entries str_contains query dataset acc es1 ≫=
    fun acc' => process_entries str_contains query dataset acc' es2.
Proof.
  revert acc. induction es1 as [|e es1 IH]; intros acc; [reflexivity|].
  cbn [app process_entries].
  destruct (process_entry str_contains query dataset acc e) as [acc'|err];
    cbn [mbind result_bind]; [apply IH | reflexivity].
Qed.

Lemma process_entry_skipped (query : string) (dataset : DataFrame F)
      (acc : Totals F) (entry : FoodEntry) :
  passes_filter query entry = false ->
  process_entry str_contains query dataset acc entry = Ok acc.
Proof.
  unfold passes_filter, process_entry. intros ->. reflexivity.
Qed.

Lemma process_entry_unparsed (query : string) (dataset : DataFrame F)
      (acc : Totals F) (entry : FoodEntry) :
  passes_filter query entry = true ->
  parse_quantity (F:=F) (quantity entry) = None ->
  process_entry str_contains query dataset acc entry =
    Ok (add_unmatched (name entry) acc).
Proof.
  unfold passes_filter, process_entry. intros -> ->. reflexivity.
Qed.

Lemma process_entry_no_match (query : string) (dataset : DataFrame F)
      (acc : Totals F) (entry : FoodEntry) (m : F) (unit : string)
      (info : MatchResult F) :
  passes_filter query entry = true ->
  parse_quantity (quantity entry) = Some (m, unit) ->
  find_food_calories str_contains (name entry) dataset = Ok info ->
  match_kind info = NoMatchFound ->
  process_entry str_contains query dataset acc entry =
    Ok (add_unmatched (name entry) acc).
Proof.
  unfold passes_filter, process_entry. intros -> -> -> Hkind.
  cbn [negb mbind result_bind]. rewrite Hkind. reflexivity.
Qed.

Lemma process_entry_matched (query : string) (dataset : DataFrame F)
      (acc : Totals F) (entry : FoodEntry) (m : F) (unit : string)
      (info : MatchResult F) (d : cell F) (cal pro car ft : F) :
  passes_filter query entry = true ->
  parse_quantity (quantity entry) = Some (m, unit) ->
  find_food_calories str_contains (name entry) dataset = Ok info ->
  match_kind info <> NoMatchFound ->
  food_description info = Some d ->
  cell_times_float (calories info) (scale_factor m unit) = Ok cal ->
  cell_times_float (protein info) (scale_factor m unit) = Ok pro ->
  cell_times_float (carbs info) (scale_factor m unit) = Ok car ->
  cell_times_float (fat info) (scale_factor m unit) = Ok ft ->
  process_entry str_contains query dataset acc entry =
    Ok {| total_calories := fadd (total_calories acc) cal;
          total_protein := fadd (total_protein acc) pro;
          total_carbs := fadd (total_carbs acc) car;
          total_fat := fadd (total_fat acc) ft;
          detailed_breakdown :=
            detailed_breakdown acc ++
            [breakdown_entry (cell_text d) (quantity entry) cal pro car ft];
          unmatched_foods := unmatched_foods acc |}.
Proof.
  unfold passes_filter, process_entry.
  intros -> -> -> Hkind Hd Hcal Hpro Hcar Hft.
  cbn [negb mbind result_bind]. rewrite Hcal, Hpro, Hcar, Hft, Hd.
  destruct (match_kind info); [reflexivity | reflexivity | contradiction Hkind; reflexivity].
Qed.

(** One iteration either skips the entry or gives it one outcome. *)
Lemma process_entry_outcome (query : string) (dataset : DataFrame F)
      (acc acc' : Totals F) (entry : FoodEntry) :
  process_entry str_contains query dataset acc entry = Ok acc' ->
  (passes_filter query entry = false /\ acc' = acc) \/
  (passes_filter query entry = true /\
   exists o,
     entry_outcome str_contains dataset entry o /\
     detailed_breakdown acc' =
       detailed_breakdown acc ++ option_list (outcome_line o) /\
     unmatched_foods acc' =
       unmatched_foods acc ++ option_list (outcome_unmatched o)).
Proof.
  destruct (passes_filter query entry) eqn:Hpass.
  2:{ rewrite process_entry_skipped by exact Hpass.
      intros [= <-]. left. auto. }
  intros Hstep. right. split; [reflexivity|].
  destruct (parse_quantity (F:=F) (quantity entry)) as [[m unit]|] eqn:Hparse.
  2:{ rewrite process_entry_unparsed in Hstep by assumption.
      injection Hstep as <-.
      exists (Unmatched (name entry)). cbn.
      rewrite app_nil_r. auto. }
  destruct (find_food_calories str_contains (name entry) dataset)
    as [info|err] eqn:Hfind.
  2:{ unfold passes_filter, process_entry in *.
      rewrite Hpass, Hparse, Hfind in Hstep. discriminate Hstep. }
  destruct (match_type_cases (match_kind info)) as [Hkind|Hkind].
  { rewrite (process_entry_no_match query dataset acc entry m unit info)
      in Hstep by assumption.
    injection Hstep as <-.
    exists (Unmatched (name entry)). cbn.
    rewrite app_nil_r. split; [|auto]. split; [reflexivity|].
    right. split; [congruence|]. exists info. auto. }
  assert (Hrun := Hstep). unfold process_entry in Hrun.
  change (str_in (lower query) (lower (name entry)))
    with (passes_filter query entry) in Hrun.
  rewrite Hpass, Hparse, Hfind in Hrun. cbn [negb mbind result_bind] in Hrun.
  destruct (cell_times_float (calories info) (scale_factor m unit))
    as [cal|] eqn:Hcal;
    [|destruct (match_kind info); [discriminate.. | contradiction Hkind; reflexivity]].
  destruct (cell_times_float (protein info) (scale_factor m unit))
    as [pro|] eqn:Hpro;
    [|destruct (match_kind info); [discriminate.. | contradiction Hkind; reflexivity]].
  destruct (cell_times_float (carbs info) (scale_factor m unit))
    as [car|] eqn:Hcar;
    [|destruct (match_kind info); [discriminate.. | contradiction Hkind; reflexivity]].
  destruct (cell_times_float (fat info) (scale_factor m unit))
    as [ft|] eqn:Hft;
    [|destruct (match_kind info); [discriminate.. | contradiction Hkind; reflexivity]].
  destruct (food_description info) as [d|] eqn:Hd;
    [|destruct (match_kind info); [discriminate.. | contradiction Hkind; reflexivity]].
  clear Hrun.
  rewrite (process_entry_matched query dataset acc entry m unit info d
             cal pro car ft) in Hstep by assumption.
  injection Hstep as <-.
  exists (Line (breakdown_entry (cell_text d) (quantity entry) cal pro car ft)).
  cbn. rewrite app_nil_r. split; [|auto].
  exists m, unit, info, d, cal, pro, car, ft. auto 10.
Qed.

Lemma outcomes_length (outs : list outcome) :
  (length (omap outcome_line outs) + length (omap outcome_unmatched outs)
   = length outs)%nat.
Proof.
  induction outs as [|[text|food] outs IH]; cbn [omap list_omap outcome_line
    outcome_unmatched length]; lia.
Qed.

(** The loop, from any state of its locals: the entries that pass the
    filter get one outcome each, in order, and the two lists grow by the
    lines and by the unmatched names of these outcomes. *)
Lemma process_entries_outcomes (query : string) (dataset : DataFrame F)
      (es : list FoodEntry) (acc acc' : Totals F) :
  process_entries str_contains query dataset acc es = Ok acc' ->
  exists outs,
    Forall2 (entry_outcome str_contains dataset)
            (filter (fun e => Is_true (passes_filter query e)) es) outs /\
    detailed_breakdown acc' = detailed_breakdown acc ++ omap outcome_line outs /\
    unmatched_foods acc' = unmatched_foods acc ++ omap outcome_unmatched outs.
Proof.
  revert acc. induction es as [|e es IH]; intros acc.
  - intros [= <-]. exists []. rewrite !app_nil_r. split; [constructor | auto].
  - cbn [process_entries].
    destruct (process_entry str_contains query dataset acc e) as [acc1|err]
      eqn:Hstep; [|discriminate].
    cbn [mbind result_bind]. intros Hrest.
    destruct (IH acc1 Hrest) as (outs & Hall & Hlines & Hunmatched).
    destruct (process_entry_outcome query dataset acc acc1 e Hstep)
      as [[Hpass ->] | (Hpass & o & Ho & Hline & Hun)].
    + exists outs. rewrite filter_cons_False; [auto|].
      rewrite Hpass. exact id.
    + exists (o :: outs). rewrite filter_cons_True by (rewrite Hpass; exact I).
      split; [constructor; assumption|].
      rewrite Hlines, Hunmatched, Hline, Hun, <- !app_assoc.
      destruct o; cbn; auto.
Qed.

(** On a well-formed table the matcher returns, the search being one
    that returns, and what it returns for a match holds numbers and a
    description. *)
Lemma find_food_calories_total (food_name : string) (dataset : DataFrame F) :
  well_formed dataset = true ->
  exists info,
    find_food_calories str_contains food_name dataset = Ok info /\
    (match_kind info = NoMatchFound \/
     exists cal pro car ft d,
       calories info = Num cal /\ protein info = Num pro /\
       carbs info = Num car /\ fat info = Num ft /\
       food_description info = Some d).
Proof.
  unfold well_formed. intros Hwf.
  apply andb_true_iff in Hwf as [Hcol Hrows].
  assert (Hrow : forall kind r,
             r ∈ rows dataset ->
             exists info,
               match_of_row kind r = Ok info /\
               exists cal pro car ft d,
                 calories info = Num cal /\ protein info = Num pro /\
                 carbs info = Num car /\ fat info = Num ft /\
                 food_description info = Some d).
  { intros kind r Hin.
    apply list_elem_of_In in Hin.
    eapply forallb_forall in Hrows; [|exact Hin].
    repeat (apply andb_true_iff in Hrows as [Hrows ?]).
    unfold has_text, is_number in *.
    destruct (r !! description_column) as [[d|]|] eqn:Hd; try discriminate.
    destruct (r !! energy_column) as [[|e]|] eqn:He; try discriminate.
    destruct (r !! protein_column) as [[|p]|] eqn:Hp; try discriminate.
    destruct (r !! carbohydrate_column) as [[|c]|] eqn:Hc; try discriminate.
    destruct (r !! fat_column) as [[|f]|] eqn:Hf; try discriminate.
    eexists. split; [apply (match_of_row_ok kind r _ _ _ _ _ He Hp Hc Hf Hd)|].
    cbn. eauto 10. }
  assert (Htexts : forallb has_text (rows dataset) = true).
  { apply forallb_forall. intros r Hin.
    eapply forallb_forall in Hrows; [|exact Hin].
    repeat (apply andb_true_iff in Hrows as [Hrows ?]). exact Hrows. }
  rewrite find_food_calories_unfold, Hcol, Htexts.
  destruct (filter (fun r => Is_true (is_exact (lower food_name) r))
                   (rows dataset)) as [|r matches] eqn:Hexact.
  - destruct (filter
                (fun r => Is_true (is_partial str_contains (lower food_name) r))
                (rows dataset)) as [|r matches] eqn:Hpartial.
    + exists no_match_found. auto.
    + apply filter_head_in in Hpartial as [Hin _].
      destruct (Hrow Partial r Hin) as (info & Hinfo & Hcells). eauto.
    - apply filter_head_in in Hexact as [Hin _].
      destruct (Hrow Exact r Hin) as (info & Hinfo & Hcells). eauto.
Qed.

Lemma process_entry_total (query : string) (dataset : DataFrame F)
      (acc : Totals F) (entry : FoodEntry) :
  well_formed dataset = true ->
  exists acc', process_entry str_contains query dataset acc entry = Ok acc'.
Proof.
  intros Hwf.
  destruct (passes_filter query entry) eqn:Hpass.
  2:{ eexists. apply process_entry_skipped. exact Hpass. }
  destruct (parse_quantity (F:=F) (quantity entry)) as [[m unit]|] eqn:Hparse.
  2:{ eexists. apply process_entry_unparsed; assumption. }
  destruct (find_food_calories_total (name entry) dataset Hwf)
    as (info & Hfind & [Hkind | (cal & pro & car & ft & d & Hc & Hp & Hcar & Hf & Hd)]).
  - eexists. eapply process_entry_no_match; eassumption.
  - destruct (match_type_cases (match_kind info)) as [Hkind|Hkind].
    + eexists. eapply process_entry_no_match; eassumption.
    + eexists. eapply process_entry_matched; try eassumption.
      * rewrite Hc. reflexivity.
      * rewrite Hp. reflexivity.
      * rewrite Hcar. reflexivity.
      * rewrite Hf. reflexivity.
Qed.

Lemma process_entries_total (query : string) (dataset : DataFrame F)
      (es : list FoodEntry) (acc : Totals F) :
  well_formed dataset = true ->
  exists acc', process_entries str_contains query dataset acc es = Ok acc'.
Proof.
  intros Hwf. revert acc. induction es as [|e es IH]; intros acc.
  - exists acc. reflexivity.
  - cbn [process_entries].
    destruct (process_entry_total query dataset acc e Hwf) as [acc1 ->].
    cbn [mbind result_bind]. apply IH.
Qed.

End AggregatorFacts.

(** C3.  For an entry whose quantity parses to the magnitude [m] and the
    unit [unit], the factor is [m / 100] times the multiplier of the unit
    (1 for g, 1 for ml, 100 for piece, 1 for any other unit), and it is
    this factor that multiplies each matched nutrient value added to the
    totals.  In exact arithmetic [200g] gives 2, [2piece] gives 2 and
    [50ml] gives 1/2. *)
Theorem scale_factor_is_magnitude_times_unit :
  (forall (F : Type) (HF : PyFloat F) (str_contains : string -> string -> bool)
          (query : string) (dataset : DataFrame F) (acc : Totals F)
          (entry : FoodEntry) (m : F) (unit : string) (info : MatchResult F)
          (d : cell F) (cal pro car ft : F),
     passes_filter query entry = true ->
     parse_quantity (quantity entry) = Some (m, unit) ->
     find_food_calories str_contains (name entry) dataset = Ok info ->
     match_kind info <> NoMatchFound ->
     food_description info = Some d ->
     calories info = Num cal ->
     protein info = Num pro ->
     carbs info = Num car ->
     fat info = Num ft ->
     let factor := fmul (fdiv m (of_int 100)) (of_int (spec_unit_multiplier unit)) in
     scale_factor m unit = factor /\
     process_entry str_contains query dataset acc entry =
       Ok {| total_calories := fadd (total_calories acc) (fmul cal factor);
             total_protein := fadd (total_protein acc) (fmul pro factor);
             total_carbs := fadd (total_carbs acc) (fmul car factor);
             total_fat := fadd (total_fat acc) (fmul ft factor);
             detailed_breakdown :=
               detailed_breakdown acc ++
               [breakdown_entry (cell_text d) (quantity entry)
                                (fmul cal factor) (fmul pro factor)
                                (fmul car factor) (fmul ft factor)];
             unmatched_foods := unmatched_foods acc |}) /\
  (parse_quantity (F:=Q) "200g" = Some (200 # 1, "g") /\
   scale_factor (200 # 1) "g" = 2 # 1) /\
  (parse_quantity (F:=Q) "2piece" = Some (2 # 1, "piece") /\
   scale_factor (2 # 1) "piece" = 2 # 1) /\
  (parse_quantity (F:=Q) "50ml" = Some (50 # 1, "ml") /\
   scale_factor (50 # 1) "ml" = 1 # 2).
Proof.
  split; [|repeat split; vm_compute; reflexivity].
  intros F HF str_contains query dataset acc entry m unit info d cal pro car ft
         Hpass Hparse Hfind Hkind Hd Hcal Hpro Hcar Hft factor.
  assert (Hfactor : scale_factor m unit = factor).
  { unfold scale_factor, factor. rewrite unit_multiplier_table. reflexivity. }
  split; [exact Hfactor|].
  apply (process_entry_matched str_contains query dataset acc entry m unit info d);
    try assumption.
  - rewrite Hcal, Hfactor. reflexivity.
  - rewrite Hpro, Hfactor. reflexivity.
  - rewrite Hcar, Hfactor. reflexivity.
  - rewrite Hft, Hfactor. reflexivity.
Qed.

(** C3, witness: the entry [banana], [200g] of the worked example. *)
Lemma scale_factor_is_magnitude_times_unit_witness :
  scale_factor (200 # 1) "g" = 2 # 1 /\
  exists acc,
    process_entry literal_contains "banana" banana_dataset initial_totals
                  banana_200g = Ok acc /\
    total_calories acc = 178 # 1 /\
    total_protein acc = 11 # 5.
Proof.
  destruct (proj1 scale_factor_is_magnitude_times_unit Q Q_PyFloat
              literal_contains "banana" banana_dataset initial_totals banana_200g
              (200 # 1) "g" banana_match (Str "Banana, raw")
              (89 # 1) (11 # 10) (23 # 1) (3 # 10))
    as [Hfactor Hrun]; try (vm_compute; reflexivity).
  - discriminate.
  - split; [rewrite Hfactor; vm_compute; reflexivity|].
    eexists. split; [exact Hrun|]. split; vm_compute; reflexivity.
Defined.

Section AggregatorClaims.

Context {F : Type} `{PyFloat F}.

(** C5.  An entry whose name does not hold the query item, both lowered,
    leaves the locals of the loop as they are: nothing is added to the
    four totals, to the breakdown or to the unmatched list, and the
    result is that of the entries without it. *)
Theorem filtered_entry_is_skipped
        (str_contains : string -> string -> bool) (query : string)
        (dataset : DataFrame F) (entry : FoodEntry) :
  str_in (lower query) (lower (name entry)) = false ->
  (forall acc,
     process_entry str_contains query dataset acc entry = Ok acc) /\
  (forall before after,
     calculate_nutritional_info str_contains (before ++ entry :: after)
                                query dataset =
     calculate_nutritional_info str_contains (before ++ after) query dataset).
Proof.
  intros Hskip.
  assert (Hstep : forall acc,
             process_entry str_contains query dataset acc entry = Ok acc).
  { intros acc. apply process_entry_skipped. exact Hskip. }
  split; [exact Hstep|].
  intros before after. unfold calculate_nutritional_info.
  rewrite !process_entries_app.
  destruct (process_entries str_contains query dataset initial_totals before)
    as [acc|err]; [|reflexivity].
  cbn [mbind result_bind process_entries]. rewrite Hstep. reflexivity.
Qed.

End AggregatorClaims.

(** C5, witness: the entry [rice] under the query item [banana]. *)
Lemma filtered_entry_is_skipped_witness :
  process_entry literal_contains "banana" banana_dataset initial_totals rice_100g =
    Ok initial_totals /\
  calculate_nutritional_info literal_contains [banana_200g; rice_100g]
                             "banana" banana_dataset =
  calculate_nutritional_info literal_contains [banana_200g] "banana" banana_dataset.
Proof.
  destruct (filtered_entry_is_skipped (F:=Q) literal_contains "banana"
              banana_dataset rice_100g) as [Hstep Hlist].
  - vm_compute. reflexivity.
  - split; [apply Hstep|]. apply (Hlist [banana_200g] []).
Defined.

(** C6.  Every entry that passes the filter is accounted for once in the
    result: the entries that pass, in order, have one outcome each, a
    breakdown line when the quantity parses and a record matches, the name
    in the unmatched list when the quantity does not parse or nothing
    matches; the breakdown is the lines of these outcomes and the unmatched
    list their names, so the two together are as many as the entries that
    pass.  An unmatched entry leaves the totals and the breakdown as they
    are.  On a well-formed table the aggregator returns, for entries
    whose names hold no regular-expression operator, so that the search
    for them is the literal one.  The entry [xyz123food] ends in the
    unmatched list with all totals 0, in exact arithmetic and in
    binary64. *)
Theorem entries_accounted_once :
  (forall (F : Type) (HF : PyFloat F) (str_contains : string -> string -> bool)
          (food_entries : list FoodEntry) (query : string)
          (dataset : DataFrame F) (info : NutritionInfo F),
     calculate_nutritional_info str_contains food_entries query dataset = Ok info ->
     exists outs,
       Forall2 (entry_outcome str_contains dataset)
               (filter (fun e => Is_true (passes_filter query e)) food_entries)
               outs /\
       breakdown info = join newline (omap outcome_line outs) /\
       info_unmatched info = omap outcome_unmatched outs /\
       (length (omap outcome_line outs) + length (info_unmatched info) =
        length (filter (fun e => Is_true (passes_filter query e)) food_entries))%nat) /\
  (forall (F : Type) (HF : PyFloat F) (str_contains : string -> string -> bool)
          (query : string) (dataset : DataFrame F) (acc : Totals F)
          (entry : FoodEntry),
     passes_filter query entry = true ->
     parse_quantity (F:=F) (quantity entry) = None \/
     (exists m, find_food_calories str_contains (name entry) dataset = Ok m /\
                match_kind m = NoMatchFound) ->
     process_entry str_contains query dataset acc entry =
       Ok (add_unmatched (name entry) acc)) /\
  (forall (F : Type) (HF : PyFloat F)
          (food_entries : list FoodEntry) (query : string) (dataset : DataFrame F),
     well_formed dataset = true ->
     Forall (fun entry => plain_pattern (lower (name entry)) = true)
            food_entries ->
     exists info,
       calculate_nutritional_info literal_contains food_entries query dataset =
         Ok info) /\
  calculate_nutritional_info literal_contains [unknown_food] "" banana_dataset =
    Ok {| info_calories := 0 # 1; info_protein := 0 # 1; info_carbs := 0 # 1;
          info_fat := 0 # 1;
          breakdown := ""; info_unmatched := ["xyz123food"] |} /\
  calculate_nutritional_info literal_contains [unknown_food] ""
    banana_dataset_b64 =
    Ok {| info_calories := b64_of_int 0; info_protein := b64_of_int 0;
          info_carbs := b64_of_int 0; info_fat := b64_of_int 0;
          breakdown := ""; info_unmatched := ["xyz123food"] |}.
Proof.
  split; [|split; [|split; [|split]]].
  - intros F HF str_contains food_entries query dataset info.
    unfold calculate_nutritional_info.
    destruct (process_entries str_contains query dataset initial_totals
                              food_entries) as [acc|err] eqn:Hloop;
      [|discriminate].
    cbn [mbind result_bind mret result_ret]. intros [= <-].
    destruct (process_entries_outcomes str_contains query dataset food_entries
                initial_totals acc Hloop) as (outs & Hall & Hlines & Hunmatched).
    cbn [initial_totals detailed_breakdown unmatched_foods app]
      in Hlines, Hunmatched.
    exists outs. cbn [breakdown info_unmatched].
    rewrite Hlines, Hunmatched.
    split; [exact Hall|]. split; [reflexivity|]. split; [reflexivity|].
    rewrite outcomes_length. symmetry. apply (Forall2_length _ _ _ Hall).
  - intros F HF str_contains query dataset acc entry Hpass Hwhy.
    destruct (parse_quantity (F:=F) (quantity entry)) as [[m unit]|] eqn:Hparse.
    + destruct Hwhy as [Hnone | (info & Hfind & Hkind)]; [discriminate|].
      eapply process_entry_no_match; eassumption.
    + apply process_entry_unparsed; assumption.
  - intros F HF food_entries query dataset Hwf _.
    unfold calculate_nutritional_info.
    destruct (process_entries_total literal_contains query dataset food_entries
                initial_totals Hwf) as [acc ->].
    eexists. reflexivity.
  - vm_compute. reflexivity.
  - vm_compute. reflexivity.
Qed.

(** C6, witness: a matched entry, an unparsed one and an unmatched one. *)
Lemma entries_accounted_once_witness :
  exists info outs,
    calculate_nutritional_info literal_contains
      [banana_200g; {| name := "banana"; quantity := "abcg" |}; unknown_food]
      "" banana_dataset = Ok info /\
    Forall2 (entry_outcome literal_contains banana_dataset)
            (filter (fun e => Is_true (passes_filter "" e))
                    [banana_200g; {| name := "banana"; quantity := "abcg" |};
                     unknown_food]) outs /\
    breakdown info = join newline (omap outcome_line outs) /\
    info_unmatched info = omap outcome_unmatched outs /\
    info_unmatched info = ["banana"; "xyz123food"] /\
    info_calories info = 178 # 1.
Proof.
  destruct (proj1 (proj2 (proj2 entries_accounted_once)) Q Q_PyFloat
              [banana_200g; {| name := "banana"; quantity := "abcg" |}; unknown_food]
              "" banana_dataset) as [info Hinfo].
  { vm_compute. reflexivity. }
  { apply Forall_cons. split; [vm_compute; reflexivity|].
    apply Forall_cons. split; [vm_compute; reflexivity|].
    apply Forall_cons. split; [vm_compute; reflexivity|].
    constructor. }
  destruct (proj1 entries_accounted_once Q Q_PyFloat literal_contains _ _ _ info
              Hinfo) as (outs & Hall & Hlines & Hunmatched & _).
  exists info, outs. split; [exact Hinfo|]. split; [exact Hall|].
  split; [exact Hlines|]. split; [exact Hunmatched|].
  vm_compute in Hinfo. injection Hinfo as <-. split; reflexivity.
Defined.

(** ** The submission branch *)

Section SubmissionClaims.

Context {F : Type} `{PyFloat F}.
Variable str_contains : string -> string -> bool.

(** A call that passes the three arguments runs the body on them. *)
Lemma call_with_three_arguments (food_entries : list FoodEntry)
      (query_item : string) (dataset : DataFrame F) :
  call_calculate_nutritional_info str_contains
    [PyEntries food_entries; PyStr query_item; PyFrame dataset] =
  calculate_nutritional_info str_contains food_entries query_item dataset.
Proof. reflexivity. Qed.

(** A call that passes two arguments does not reach the body. *)
Lemma call_with_two_arguments (a b : pyvalue F) :
  call_calculate_nutritional_info str_contains [a; b] =
  Err (TypeError
         "calculate_nutritional_info() missing 1 required positional argument: 'dataset'").
Proof. reflexivity. Qed.

(** C8.  With a profile name set, every submission of a form that holds
    at least one entry ends in the [TypeError] of the call of
    [calculate_nutritional_info] with two arguments for three
    parameters: no totals are computed, and the rows of the log are the
    rows it had. *)
Theorem submission_raises_type_error
        (profile_name : string) (food_dataset : DataFrame F)
        (intake_date meal_type : string) (fields : list (string * string))
        (log : list (LogRow F)) :
  profile_name <> "" ->
  form_entries fields <> [] ->
  nutrition_tracking_page str_contains profile_name food_dataset intake_date
                          meal_type fields true log =
    (Some (TypeError
             "calculate_nutritional_info() missing 1 required positional argument: 'dataset'"),
     log).
Proof.
  intros Hname Hentries. unfold nutrition_tracking_page.
  destruct (String.eqb_spec profile_name "") as [Heq|_]; [contradiction|].
  destruct (form_entries fields) as [|entry rest] eqn:Hform; [contradiction|].
  cbn [length Nat.ltb Nat.leb andb].
  rewrite call_with_two_arguments. reflexivity.
Qed.

End SubmissionClaims.

(** C8, witness: one entry, [banana] and [200g], on the table of the
    worked example and an empty log. *)
Lemma submission_raises_type_error_witness :
  nutrition_tracking_page literal_contains "Ada" banana_dataset "2024-01-01"
                          "Lunch" [("banana", "200g")] true [] =
    (Some (TypeError
             "calculate_nutritional_info() missing 1 required positional argument: 'dataset'"),
     []).
Proof.
  apply (submission_raises_type_error (F:=Q) literal_contains "Ada" banana_dataset
           "2024-01-01" "Lunch" [("banana", "200g")] []).
  - discriminate.
  - vm_compute. discriminate.
Defined.

(** * Further properties *)

(** ** Tokens and fields *)

Lemma all_chars_of_list (p : ascii -> bool) (l : list ascii) :
  all_chars p (string_of_list_ascii l) = forallb p l.
Proof.
  induction l as [|c l IH]; [reflexivity|]. cbn. rewrite IH. reflexivity.
Qed.

Lemma all_chars_app (p : ascii -> bool) (a b : string) :
  all_chars p (a ++ b)%string = all_chars p a && all_chars p b.
Proof.
  induction a as [|c a IH]; [reflexivity|].
  change (String c a ++ b)%string with (String c (a ++ b)%string).
  cbn [all_chars]. rewrite IH. apply andb_assoc.
Qed.

Lemma string_of_list_nonempty (l : list ascii) :
  l <> [] -> string_of_list_ascii l <> "".
Proof. destruct l; [congruence | discriminate]. Qed.

Lemma is_token_intro (s : string) :
  s <> "" -> all_chars (fun c => negb (isspace c)) s = true -> is_token s = true.
Proof.
  intros Hne Hall. unfold is_token. rewrite Hall, andb_true_r.
  destruct (String.eqb_spec s ""); [contradiction | reflexivity].
Qed.

Lemma is_token_elim (s : string) :
  is_token s = true ->
  s <> "" /\ all_chars (fun c => negb (isspace c)) s = true.
Proof.
  unfold is_token. intros Htok. apply andb_true_iff in Htok as [Hne Hall].
  split; [|exact Hall].
  destruct (String.eqb_spec s ""); [discriminate | assumption].
Qed.

(** What [split] returns are tokens. *)
Lemma split_from_tokens (tok : list ascii) (s : string) :
  forallb (fun c => negb (isspace c)) tok = true ->
  Forall (fun t => is_token t = true) (split_from tok s).
Proof.
  revert tok. induction s as [|c s IH]; intros tok Htok.
  - cbn. destruct tok as [|a tok]; [constructor|].
    constructor; [|constructor].
    apply is_token_intro.
    + apply string_of_list_nonempty. intros Hrev.
      apply (f_equal (@length ascii)) in Hrev.
      rewrite length_rev in Hrev. discriminate.
    + rewrite all_chars_of_list, forallb_rev. exact Htok.
  - cbn [split_from]. destruct (isspace c) eqn:Hc.
    + destruct tok as [|a tok]; [apply IH; reflexivity|].
      constructor; [|apply IH; reflexivity].
      apply is_token_intro.
      * apply string_of_list_nonempty. intros Hrev.
        apply (f_equal (@length ascii)) in Hrev.
        rewrite length_rev in Hrev. discriminate.
      * rewrite all_chars_of_list, forallb_rev. exact Htok.
    + apply IH. cbn. rewrite Hc. exact Htok.
Qed.

Lemma tokens_are_tokens (line : string) :
  Forall (fun t => is_token t = true) (tokens line).
Proof. apply split_from_tokens. reflexivity. Qed.

Lemma list_ascii_app (a b : string) :
  list_ascii_of_string (a ++ b)%string =
  list_ascii_of_string a ++ list_ascii_of_string b.
Proof.
  induction a as [|c a IH]; [reflexivity|].
  change (String c a ++ b)%string with (String c (a ++ b)%string).
  cbn [list_ascii_of_string]. rewrite IH. reflexivity.
Qed.

Lemma string_of_list_app (l1 l2 : list ascii) :
  string_of_list_ascii (l1 ++ l2) =
  (string_of_list_ascii l1 ++ string_of_list_ascii l2)%string.
Proof.
  induction l1 as [|c l1 IH]; [reflexivity|].
  cbn [app string_of_list_ascii]. rewrite IH. reflexivity.
Qed.

Lemma rev_string_involutive (s : string) : rev_string (rev_string s) = s.
Proof.
  unfold rev_string.
  rewrite list_ascii_of_string_of_list_ascii, rev_involutive.
  apply string_of_list_ascii_of_string.
Qed.

Lemma rev_string_app (a b : string) :
  rev_string (a ++ b)%string = (rev_string b ++ rev_string a)%string.
Proof.
  unfold rev_string. rewrite list_ascii_app, rev_app_distr.
  apply string_of_list_app.
Qed.

Lemma all_chars_rev_string (p : ascii -> bool) (s : string) :
  all_chars p (rev_string s) = all_chars p s.
Proof.
  unfold rev_string. rewrite all_chars_of_list, forallb_rev.
  rewrite <- all_chars_of_list, string_of_list_ascii_of_string. reflexivity.
Qed.

(** [lstrip] removes a run of blanks from the front. *)
Lemma lstrip_decompose (s : string) :
  exists blanks,
    s = (blanks ++ lstrip s)%string /\ all_chars isspace blanks = true.
Proof.
  induction s as [|c s (blanks & Hs & Hblanks)].
  - exists "". auto.
  - cbn [lstrip]. destruct (isspace c) eqn:Hc.
    + exists (String c blanks). split.
      * change (String c blanks ++ lstrip s)%string
          with (String c (blanks ++ lstrip s)%string).
        rewrite <- Hs. reflexivity.
      * cbn [all_chars]. rewrite Hc, Hblanks. reflexivity.
    + exists "". auto.
Qed.

(** [strip] removes a run of blanks from each end. *)
Lemma strip_decompose (s : string) :
  exists before after,
    s = (before ++ strip s ++ after)%string /\
    all_chars isspace before = true /\ all_chars isspace after = true.
Proof.
  destruct (lstrip_decompose s) as (before & Hs & Hbefore).
  destruct (lstrip_decompose (rev_string (lstrip s))) as (blanks & Hr & Hblanks).
  exists before, (rev_string blanks). split; [|split].
  - rewrite Hs at 1. f_equal. unfold strip.
    rewrite <- rev_string_app, <- Hr. symmetry. apply rev_string_involutive.
  - exact Hbefore.
  - rewrite all_chars_rev_string. exact Hblanks.
Qed.

Lemma split_from_blanks (tok : list ascii) (blanks : string) :
  all_chars isspace blanks = true ->
  split_from tok blanks = split_from tok "".
Proof.
  revert tok. induction blanks as [|c blanks IH]; intros tok Hblanks;
    [reflexivity|].
  cbn in Hblanks. apply andb_true_iff in Hblanks as [Hc Hblanks].
  cbn [split_from]. rewrite Hc.
  destruct tok as [|a tok]; rewrite (IH [] Hblanks); reflexivity.
Qed.

Lemma split_from_leading_blanks (blanks s : string) :
  all_chars isspace blanks = true ->
  split_from [] (blanks ++ s)%string = split_from [] s.
Proof.
  induction blanks as [|c blanks IH]; intros Hblanks; [reflexivity|].
  cbn in Hblanks. apply andb_true_iff in Hblanks as [Hc Hblanks].
  change (String c blanks ++ s)%string with (String c (blanks ++ s)%string).
  cbn [split_from]. rewrite Hc. apply IH, Hblanks.
Qed.

Lemma split_from_trailing_blanks (tok : list ascii) (s blanks : string) :
  all_chars isspace blanks = true ->
  split_from tok (s ++ blanks)%string = split_from tok s.
Proof.
  intros Hblanks. revert tok. induction s as [|c s IH]; intros tok.
  - apply split_from_blanks, Hblanks.
  - change (String c s ++ blanks)%string with (String c (s ++ blanks)%string).
    cbn [split_from]. destruct (isspace c); [|apply IH].
    destruct tok; rewrite IH; reflexivity.
Qed.

(** [split] does not see the blanks [strip] removes. *)
Lemma tokens_split (line : string) : tokens line = split line.
Proof.
  unfold tokens, split.
  destruct (strip_decompose line) as (before & after & Hline & Hb & Ha).
  rewrite Hline at 2.
  rewrite split_from_leading_blanks, split_from_trailing_blanks by assumption.
  reflexivity.
Qed.

Lemma split_from_token (tok : list ascii) (t rest : string) :
  all_chars (fun c => negb (isspace c)) t = true ->
  split_from tok (t ++ rest)%string =
  split_from (rev (list_ascii_of_string t) ++ tok) rest.
Proof.
  revert tok. induction t as [|c t IH]; intros tok Ht; [reflexivity|].
  cbn in Ht. apply andb_true_iff in Ht as [Hc Ht].
  change (String c t ++ rest)%string with (String c (t ++ rest)%string).
  cbn [split_from]. apply negb_true_iff in Hc. rewrite Hc.
  rewrite (IH (c :: tok) Ht). cbn [list_ascii_of_string rev].
  rewrite <- app_assoc. reflexivity.
Qed.

Lemma string_app_nil_r (s : string) : (s ++ "")%string = s.
Proof.
  induction s as [|c s IH]; [reflexivity|].
  change (String c s ++ "")%string with (String c (s ++ "")%string).
  rewrite IH. reflexivity.
Qed.

(** Tokens joined by one blank character split into themselves. *)
Lemma split_join_tokens (sep : ascii) (fields : list string) :
  isspace sep = true ->
  Forall (fun t => is_token t = true) fields ->
  split (join (String sep "") fields) = fields.
Proof.
  intros Hsep Hfields. unfold split, join.
  induction Hfields as [|t fields Ht Hfields IH]; [reflexivity|].
  apply is_token_elim in Ht as [Hne Hchars].
  assert (Hrev : rev (list_ascii_of_string t) <> []).
  { intros Hnil. apply Hne.
    apply (f_equal (@rev ascii)) in Hnil. rewrite rev_involutive in Hnil.
    rewrite <- (string_of_list_ascii_of_string t), Hnil. reflexivity. }
  destruct fields as [|u fields].
  - cbn [String.concat].
    rewrite <- (string_app_nil_r t) at 1.
    rewrite (split_from_token [] t "" Hchars), app_nil_r. cbn [split_from].
    destruct (rev (list_ascii_of_string t)) as [|a l] eqn:Hl; [contradiction|].
    rewrite <- Hl, rev_involutive, string_of_list_ascii_of_string. reflexivity.
  - change (String.concat (String sep "") (t :: u :: fields))
      with (t ++ String sep (String.concat (String sep "") (u :: fields)))%string.
    rewrite (split_from_token [] t _ Hchars), app_nil_r.
    cbn [split_from]. rewrite Hsep.
    destruct (rev (list_ascii_of_string t)) as [|a l] eqn:Hl; [contradiction|].
    rewrite <- Hl, rev_involutive, string_of_list_ascii_of_string, IH.
    reflexivity.
Qed.

(** Fields without the separator, joined by it, split into themselves. *)
Lemma split_on_field (sep : ascii) (field rest : string) :
  all_chars (fun c => negb (Ascii.eqb c sep)) field = true ->
  split_on sep (field ++ String sep rest)%string = field :: split_on sep rest.
Proof.
  induction field as [|c field IH]; intros Hfield.
  - change ("" ++ String sep rest)%string with (String sep rest).
    cbn [split_on]. rewrite Ascii.eqb_refl. reflexivity.
  - cbn [all_chars] in Hfield. apply andb_true_iff in Hfield as [Hc Hfield].
    change (String c field ++ String sep rest)%string
      with (String c (field ++ String sep rest)%string).
    cbn [split_on]. apply negb_true_iff in Hc. rewrite Hc, (IH Hfield).
    reflexivity.
Qed.

Lemma split_on_last_field (sep : ascii) (field : string) :
  all_chars (fun c => negb (Ascii.eqb c sep)) field = true ->
  split_on sep field = [field].
Proof.
  induction field as [|c field IH]; intros Hfield; [reflexivity|].
  cbn [all_chars] in Hfield. apply andb_true_iff in Hfield as [Hc Hfield].
  cbn [split_on]. apply negb_true_iff in Hc. rewrite Hc, (IH Hfield).
  reflexivity.
Qed.

Lemma split_on_join (sep : ascii) (fields : list string) :
  fields <> [] ->
  Forall (fun f => all_chars (fun c => negb (Ascii.eqb c sep)) f = true) fields ->
  split_on sep (join (String sep "") fields) = fields.
Proof.
  intros Hne Hfields. unfold join.
  induction Hfields as [|f fields Hf Hfields IH]; [contradiction|].
  destruct fields as [|g fields].
  - cbn [String.concat]. apply split_on_last_field, Hf.
  - change (String.concat (String sep "") (f :: g :: fields))
      with (f ++ String sep (String.concat (String sep "") (g :: fields)))%string.
    rewrite (split_on_field sep f _ Hf), IH by discriminate. reflexivity.
Qed.

Lemma all_chars_impl (p q : ascii -> bool) (s : string) :
  (forall c, p c = true -> q c = true) ->
  all_chars p s = true -> all_chars q s = true.
Proof.
  intros Hpq. induction s as [|c s IH]; [reflexivity|].
  cbn. intros Hs. apply andb_true_iff in Hs as [Hc Hs].
  rewrite (Hpq c Hc), (IH Hs). reflexivity.
Qed.

Lemma all_chars_join (p : ascii -> bool) (sep : string) (parts : list string) :
  all_chars p sep = true ->
  Forall (fun t => all_chars p t = true) parts ->
  all_chars p (join sep parts) = true.
Proof.
  intros Hsep Hparts. unfold join.
  induction Hparts as [|t parts Ht Hparts IH]; [reflexivity|].
  destruct parts as [|u parts]; [exact Ht|].
  change (String.concat sep (t :: u :: parts))
    with (t ++ sep ++ String.concat sep (u :: parts))%string.
  rewrite !all_chars_app, Ht, Hsep, IH. reflexivity.
Qed.

Lemma token_no_tab (t : string) :
  is_token t = true ->
  all_chars (fun c => negb (Ascii.eqb c (ascii_of_nat 9))) t = true.
Proof.
  intros Ht. apply is_token_elim in Ht as [_ Hchars].
  revert Hchars. apply all_chars_impl. intros c Hc.
  destruct (Ascii.eqb_spec c (ascii_of_nat 9)) as [->|]; [discriminate Hc | reflexivity].
Qed.

(** Tokens joined by underscores make one token. *)
Lemma join_underscore_token (parts : list string) :
  parts <> [] ->
  Forall (fun t => is_token t = true) parts ->
  is_token (join "_" parts) = true.
Proof.
  intros Hne Hparts. apply is_token_intro.
  - destruct parts as [|t parts]; [contradiction|].
    apply Forall_cons in Hparts as [Ht _].
    apply is_token_elim in Ht as [Htne _].
    unfold join. destruct parts as [|u parts]; [exact Htne|].
    change (String.concat "_" (t :: u :: parts))
      with (t ++ "_" ++ String.concat "_" (u :: parts))%string.
    destruct t; [contradiction | discriminate].
  - apply all_chars_join; [reflexivity|].
    eapply Forall_impl; [exact Hparts|].
    intros t Ht. apply is_token_elim in Ht. tauto.
Qed.

(** ** The cleaner, row by row *)

Section CleanerRows.

Variable float_ok : string -> bool.

Lemma scan_numeric_at_least (k : nat) (c : list string) :
  (k <= length (scan_numeric float_ok c))%nat <->
  (k <= length c)%nat /\ forallb float_ok (firstn k c) = true.
Proof.
  revert k. induction c as [|p c IH]; intros k.
  - cbn. rewrite firstn_nil. tauto.
  - destruct k as [|k]; [cbn; split; [intros _; split; [lia | reflexivity] | lia]|].
    cbn [scan_numeric firstn forallb length].
    destruct (float_ok p); cbn [andb length].
    + rewrite <- Nat.succ_le_mono, IH. split; intros [Hlen Hall]; (split; [lia | exact Hall]).
    + split; [lia | intros [_ Hfalse]; discriminate].
Qed.

Lemma scan_numeric_firstn_self (c : list string) :
  firstn (length (scan_numeric float_ok c)) c = scan_numeric float_ok c.
Proof.
  induction c as [|p c IH]; [reflexivity|].
  cbn [scan_numeric]. destruct (float_ok p); [|reflexivity].
  cbn [length firstn]. rewrite IH. reflexivity.
Qed.

Lemma scan_numeric_length_le (c : list string) :
  (length (scan_numeric float_ok c) <= length c)%nat.
Proof.
  induction c as [|p c IH]; [reflexivity|].
  cbn [scan_numeric]. destruct (float_ok p); cbn [length]; lia.
Qed.

(** X1.  A data row is kept exactly when it has at least six tokens and
    the first four of its last five tokens are accepted by [float]; the
    fifth does not matter. *)
Theorem split_row_kept_iff (parts : list string) :
  split_row float_ok parts <> None <-> keeps_row float_ok parts = true.
Proof.
  unfold split_row, keeps_row.
  destruct (Nat.ltb_spec (length parts) 6) as [Hshort|Hlong].
  - destruct (Nat.leb_spec 6 (length parts)); [lia|]. cbn.
    split; [congruence | discriminate].
  - destruct (Nat.leb_spec 6 (length parts)); [|lia]. cbn [andb].
    pose proof (scan_numeric_at_least 4 (last_n 5 parts)) as Hscan.
    rewrite last_n_length in Hscan by lia.
    destruct (Nat.ltb_spec (length (scan_numeric float_ok (last_n 5 parts))) 4)
      as [Hfew|Hfour].
    + split; [congruence|]. intros Hall.
      assert (4 <= length (scan_numeric float_ok (last_n 5 parts)))%nat
        by (apply Hscan; split; [lia | exact Hall]).
      lia.
    + split; [|discriminate]. intros _. apply Hscan. exact Hfour.
Qed.

(** X2.  A kept row has four or five numeric fields, each accepted by
    [float]; they are the first tokens of the last five of the row, and
    the description is made of all the tokens but as many at the end, at
    least one token. *)
Theorem split_row_shape (parts desc nums : list string) :
  split_row float_ok parts = Some (desc, nums) ->
  (6 <= length parts)%nat /\
  (length nums = 4 \/ length nums = 5)%nat /\
  forallb float_ok nums = true /\
  nums = firstn (length nums) (last_n 5 parts) /\
  desc = firstn (length parts - length nums) parts /\
  desc <> [].
Proof.
  unfold split_row.
  destruct (Nat.ltb_spec (length parts) 6) as [|Hlong]; [discriminate|].
  destruct (Nat.ltb_spec (length (scan_numeric float_ok (last_n 5 parts))) 4)
    as [|Hfour]; [discriminate|].
  intros [= <- <-].
  pose proof (scan_numeric_length_le (last_n 5 parts)) as Hle.
  rewrite last_n_length in Hle by lia.
  destruct (scan_numeric_prefix float_ok (last_n 5 parts)) as (rest & _ & Hall & _).
  assert (Hdesc : drop_last_n (length (scan_numeric float_ok (last_n 5 parts))) parts =
                  firstn (length parts - length (scan_numeric float_ok (last_n 5 parts)))
                         parts).
  { unfold drop_last_n.
    destruct (length (scan_numeric float_ok (last_n 5 parts))); [lia | reflexivity]. }
  split; [exact Hlong|]. split; [lia|]. split; [exact Hall|].
  split; [symmetry; apply scan_numeric_firstn_self|].
  split; [exact Hdesc|].
  rewrite Hdesc. intros Hnil. apply (f_equal (@length string)) in Hnil.
  rewrite length_firstn in Hnil. cbn in Hnil. lia.
Qed.

(** X3.  A row kept with four numeric fields is a row whose last token
    [float] rejects: that token is in no field of the output, and the first
    numeric field is also the last token of the description. *)
Theorem split_row_four_fields (parts desc nums : list string) :
  split_row float_ok parts = Some (desc, nums) ->
  length nums = 4%nat ->
  exists a b c d e,
    last_n 5 parts = [a; b; c; d; e] /\
    nums = [a; b; c; d] /\
    float_ok e = false /\
    desc = firstn (length parts - 5) parts ++ [a].
Proof.
  intros Hrow Hfour.
  destruct (split_row_shape parts desc nums Hrow)
    as (Hlong & _ & _ & Hnums & Hdesc & _).
  destruct (five_tokens (last_n 5 parts) (last_n_length 5 parts ltac:(lia)))
    as (a & b & c & d & e & Hlast).
  exists a, b, c, d, e.
  assert (Hscan : nums = scan_numeric float_ok (last_n 5 parts)).
  { unfold split_row in Hrow.
    destruct (length parts <? 6)%nat; [discriminate|].
    destruct (length (scan_numeric float_ok (last_n 5 parts)) <? 4)%nat;
      [discriminate|].
    injection Hrow as _ <-. reflexivity. }
  split; [exact Hlast|].
  rewrite Hfour, Hlast in Hnums. cbn in Hnums.
  split; [exact Hnums|]. split.
  - rewrite Hlast in Hscan. rewrite Hscan in Hfour. cbn in Hfour.
    destruct (float_ok a); [|discriminate]. destruct (float_ok b); [|discriminate].
    destruct (float_ok c); [|discriminate]. destruct (float_ok d); [|discriminate].
    destruct (float_ok e); [discriminate | reflexivity].
  - rewrite Hdesc, Hfour.
    rewrite (last_n_split 5 parts) at 2. rewrite Hlast.
    replace (length parts - 4)%nat
      with (length (firstn (length parts - 5) parts) + 1)%nat
      by (rewrite length_firstn; lia).
    rewrite firstn_app_2. reflexivity.
Qed.

(** X4.  A row of at least six tokens whose last four tokens are numeric
    and whose fifth token from the end is not is discarded: the scan
    starts at the fifth token from the end and stops there. *)
Theorem split_row_right_run_of_four (parts : list string) :
  (6 <= length parts)%nat ->
  length (spec_right_run float_ok parts) = 4%nat ->
  split_row float_ok parts = None.
Proof.
  intros Hlong Hrun. unfold split_row, spec_right_run in *.
  destruct (Nat.ltb_spec (length parts) 6); [reflexivity|].
  destruct (five_tokens (last_n 5 parts) (last_n_length 5 parts ltac:(lia)))
    as (a & b & c & d & e & Hlast).
  rewrite Hlast in *. rewrite length_rev in Hrun. cbn in Hrun |- *.
  destruct (float_ok e); [|discriminate]. destruct (float_ok d); [|discriminate].
  destruct (float_ok c); [|discriminate]. destruct (float_ok b); [|discriminate].
  destruct (float_ok a); [discriminate | reflexivity].
Qed.

End CleanerRows.

(** ** The cleaner, line by line *)

Section CleanerLines.

Variable float_ok : string -> bool.

Lemma split_row_tokens (parts desc nums : list string) :
  Forall (fun t => is_token t = true) parts ->
  split_row float_ok parts = Some (desc, nums) ->
  Forall (fun t => is_token t = true) desc /\
  Forall (fun t => is_token t = true) nums.
Proof.
  intros Hparts Hrow.
  destruct (split_row_shape float_ok parts desc nums Hrow)
    as (_ & _ & _ & Hnums & Hdesc & _).
  split.
  - rewrite Hdesc. apply Forall_take. exact Hparts.
  - rewrite Hnums. apply Forall_take. unfold last_n.
    apply Forall_drop. exact Hparts.
Qed.

Lemma format_row_join (desc nums : list string) :
  nums <> [] ->
  format_row desc nums = join tab (join "_" desc :: nums).
Proof.
  intros Hnums. unfold format_row. destruct nums; [contradiction | reflexivity].
Qed.

(** X5.  A cleaned line read back at its tabs gives the description, the
    description tokens joined by underscores, followed by the numeric
    tokens of the row: five or six fields, none of them empty. *)
Theorem clean_row_fields (line out : string) :
  clean_row float_ok line = Some out ->
  exists desc nums,
    split_row float_ok (tokens line) = Some (desc, nums) /\
    tab_fields out = join "_" desc :: nums /\
    (length (tab_fields out) = 5 \/ length (tab_fields out) = 6)%nat /\
    Forall (fun f => is_token f = true) (tab_fields out).
Proof.
  unfold clean_row.
  destruct (split_row float_ok (tokens line)) as [[desc nums]|] eqn:Hrow;
    [|discriminate].
  intros [= <-]. exists desc, nums.
  destruct (split_row_shape float_ok _ desc nums Hrow)
    as (_ & Hlen & _ & _ & _ & Hdesc).
  destruct (split_row_tokens _ desc nums (tokens_are_tokens line) Hrow)
    as [Htdesc Htnums].
  assert (Hfields : Forall (fun f => is_token f = true) (join "_" desc :: nums)).
  { constructor; [apply join_underscore_token; assumption | exact Htnums]. }
  assert (Hout : tab_fields (format_row desc nums) = join "_" desc :: nums).
  { rewrite format_row_join by (intros ->; cbn in Hlen; lia).
    unfold tab_fields, tab. apply split_on_join; [discriminate|].
    eapply Forall_impl; [exact Hfields|]. intros f. apply token_no_tab. }
  split; [reflexivity|]. split; [exact Hout|].
  rewrite Hout. split; [cbn [length]; lia | exact Hfields].
Qed.

(** X6.  Cleaning a cleaned line: a line of six fields is returned as it
    is, a line of five fields, from a row kept with four numeric fields,
    is discarded. *)
Theorem clean_row_again (line out : string) :
  clean_row float_ok line = Some out ->
  clean_row float_ok out =
    if (length (tab_fields out) =? 6)%nat then Some out else None.
Proof.
  intros Hclean.
  destruct (clean_row_fields line out Hclean)
    as (desc & nums & Hrow & Hfields & _ & Htokens).
  destruct (split_row_shape float_ok _ desc nums Hrow)
    as (_ & Hlen & Hall & _ & _ & _).
  assert (Hout : out = join tab (join "_" desc :: nums)).
  { unfold clean_row in Hclean. rewrite Hrow in Hclean.
    injection Hclean as <-. apply format_row_join. intros ->. cbn in Hlen. lia. }
  assert (Htok : tokens out = join "_" desc :: nums).
  { rewrite tokens_split, Hout. unfold tab.
    apply split_join_tokens; [reflexivity|]. rewrite <- Hfields. exact Htokens. }
  unfold clean_row. rewrite Htok, Hfields. cbn [length].
  unfold split_row. cbn [length].
  destruct Hlen as [Hfour|Hfive]; rewrite ?Hfour, ?Hfive.
  - reflexivity.
  - cbn [Nat.ltb Nat.leb Nat.eqb].
    assert (Hlast : last_n 5 (join "_" desc :: nums) = nums).
    { unfold last_n. cbn [length]. rewrite Hfive. reflexivity. }
    rewrite Hlast, (scan_numeric_all float_ok nums Hall), Hfive.
    cbn [Nat.ltb Nat.leb drop_last_n length Nat.sub firstn].
    rewrite Hfive. cbn [Nat.sub firstn].
    rewrite Hout, <- format_row_join by (intros ->; discriminate).
    unfold format_row. reflexivity.
Qed.

Lemma clean_header_fixed (header : string) :
  clean_header (strip (clean_header (strip header))) = clean_header (strip header).
Proof.
  unfold clean_header at 2 3.
  fold (tokens header).
  pose proof (tokens_are_tokens header) as Htokens.
  destruct (Nat.ltb_spec 6 (length (tokens header))) as [Hlong|Hshort].
  - set (parts := tokens header) in *.
    assert (Hdesc : length (firstn (length parts - 5) parts) = (length parts - 5)%nat)
      by (rewrite length_firstn; lia).
    rewrite Hdesc.
    assert (Hfields : Forall (fun f => is_token f = true)
                             (join "_" (firstn (length parts - 5) parts)
                                :: skipn (length parts - 5) parts)).
    { constructor.
      - apply join_underscore_token; [|apply Forall_take; exact Htokens].
        intros Hnil. apply (f_equal (@length string)) in Hnil.
        rewrite Hdesc in Hnil. cbn in Hnil. lia.
      - apply Forall_drop. exact Htokens. }
    assert (Hjoin : (join "_" (firstn (length parts - 5) parts) ++ tab ++
                     join tab (skipn (length parts - 5) parts))%string =
                    join tab (join "_" (firstn (length parts - 5) parts)
                                :: skipn (length parts - 5) parts)).
    { destruct (skipn (length parts - 5) parts) as [|x l] eqn:Hskip; [|reflexivity].
      apply (f_equal (@length string)) in Hskip.
      rewrite length_skipn in Hskip. cbn in Hskip. lia. }
    rewrite Hjoin. unfold clean_header.
    fold (tokens (join tab (join "_" (firstn (length parts - 5) parts)
                              :: skipn (length parts - 5) parts))).
    rewrite tokens_split.
    rewrite (split_join_tokens (ascii_of_nat 9) _ eq_refl Hfields
             : split (join tab _) = _).
    cbn [length]. rewrite length_skipn.
    destruct (Nat.ltb_spec 6 (S (length parts - (length parts - 5))));
      [lia | reflexivity].
  - unfold clean_header.
    fold (tokens (join tab (tokens header))).
    rewrite tokens_split.
    rewrite (split_join_tokens (ascii_of_nat 9) _ eq_refl Htokens
             : split (join tab _) = _).
    destruct (Nat.ltb_spec 6 (length (tokens header))); [lia | reflexivity].
Qed.

(** X7.  The header line: a header of more than six tokens becomes six
    fields, all the tokens but the last five joined by underscores, then
    the last five; a header of one to six tokens keeps its tokens as its
    fields; and cleaning the cleaned header changes nothing. *)
Theorem clean_header_fields (header : string) :
  ((6 < length (tokens header))%nat ->
   tab_fields (clean_header (strip header)) =
     join "_" (firstn (length (tokens header) - 5) (tokens header))
       :: last_n 5 (tokens header)) /\
  ((1 <= length (tokens header) <= 6)%nat ->
   tab_fields (clean_header (strip header)) = tokens header) /\
  clean_header (strip (clean_header (strip header))) = clean_header (strip header).
Proof.
  pose proof (tokens_are_tokens header) as Htokens.
  split; [|split; [|apply clean_header_fixed]].
  - intros Hlong. unfold clean_header. fold (tokens header).
    set (parts := tokens header) in *.
    destruct (Nat.ltb_spec 6 (length parts)); [|lia].
    assert (Hdesc : length (firstn (length parts - 5) parts) = (length parts - 5)%nat)
      by (rewrite length_firstn; lia).
    rewrite Hdesc. fold (last_n 5 parts).
    assert (Hlast : last_n 5 parts <> []).
    { intros Hnil. apply (f_equal (@length string)) in Hnil.
      rewrite last_n_length in Hnil by lia. discriminate. }
    change (join "_" (firstn (length parts - 5) parts) ++ tab ++ join tab (last_n 5 parts))%string
      with (format_row (firstn (length parts - 5) parts) (last_n 5 parts)).
    rewrite format_row_join by exact Hlast.
    unfold tab_fields, tab. apply split_on_join; [discriminate|].
    constructor.
    + apply token_no_tab, join_underscore_token; [|apply Forall_take; exact Htokens].
      intros Hnil. apply (f_equal (@length string)) in Hnil.
      rewrite Hdesc in Hnil. cbn in Hnil. lia.
    + unfold last_n. apply Forall_drop.
      eapply Forall_impl; [exact Htokens|]. intros f. apply token_no_tab.
  - intros Hlen. unfold clean_header. fold (tokens header).
    destruct (Nat.ltb_spec 6 (length (tokens header))); [lia|].
    unfold tab_fields, tab. apply split_on_join.
    + intros Hnil. rewrite Hnil in Hlen. cbn in Hlen. lia.
    + eapply Forall_impl; [exact Htokens|]. intros f. apply token_no_tab.
Qed.

Lemma omap_clean_row_again (data : list string) :
  omap (clean_row float_ok) (omap (clean_row float_ok) data) =
  filter (fun r => length (tab_fields r) = 6%nat) (omap (clean_row float_ok) data).
Proof.
  induction data as [|line data IH]; [reflexivity|].
  cbn [omap list_omap].
  destruct (clean_row float_ok line) as [out|] eqn:Hclean; [|exact IH].
  change (omap (clean_row float_ok) (out :: omap (clean_row float_ok) data))
    with (match clean_row float_ok out with
          | Some y => y :: omap (clean_row float_ok) (omap (clean_row float_ok) data)
          | None => omap (clean_row float_ok) (omap (clean_row float_ok) data)
          end).
  rewrite (clean_row_again line out Hclean), IH.
  destruct (Nat.eqb_spec (length (tab_fields out)) 6) as [Hsix|Hnot].
  - rewrite filter_cons_True by exact Hsix. reflexivity.
  - rewrite filter_cons_False by exact Hnot. reflexivity.
Qed.


(** X9.  The lines the cleaner writes for an input of at least one line:
    the cleaned header, then the cleaned lines of the rows it keeps, one
    for each, in the order of the input.  (The value the function returns
    is not part of the statement.) *)
Theorem clean_food_dataset_output (header : string) (data : list string) :
  exists rows,
    clean_food_dataset float_ok (header :: data) =
      Some (clean_header (strip header) :: rows) /\
    length rows =
      length (filter (fun line => Is_true (keeps_row float_ok (tokens line))) data) /\
    Forall2 (fun line row => clean_row float_ok line = Some row)
            (filter (fun line => Is_true (keeps_row float_ok (tokens line))) data)
            rows.
Proof.
  - exists (omap (clean_row float_ok) data).
    split; [reflexivity|].
    assert (Hrows : Forall2 (fun line row => clean_row float_ok line = Some row)
                      (filter (fun line => Is_true (keeps_row float_ok (tokens line))) data)
                      (omap (clean_row float_ok) data)).
    { induction data as [|line data IH]; [constructor|].
      cbn [omap list_omap].
      destruct (clean_row float_ok line) as [row|] eqn:Hclean.
      - rewrite filter_cons_True; [constructor; assumption|].
        apply Is_true_true, split_row_kept_iff.
        unfold clean_row in Hclean.
        destruct (split_row float_ok (tokens line)); [discriminate | discriminate Hclean].
      - rewrite filter_cons_False; [exact IH|].
        intros Hkeep. apply Is_true_true, split_row_kept_iff in Hkeep.
        unfold clean_row in Hclean.
        destruct (split_row float_ok (tokens line)) as [[d n]|];
          [discriminate Hclean | contradiction]. }
    split; [symmetry; apply (Forall2_length _ _ _ Hrows) | exact Hrows].
Qed.

End CleanerLines.

(** ** The loader *)

Section LoaderFacts.

Context {F : Type} `{PyFloat F}.

Local Abbreviation row := (gmap string (cell F)).

(** The projection of one row by the loader. *)
Lemma loaded_rows (sheet : DataFrame F) :
  rows (load_food_dataset sheet) =
  map (fun r : row =>
         filter (fun kv => kv.1 ∈ columns (load_food_dataset sheet)) r)
      (rows sheet).
Proof. reflexivity. Qed.

Lemma loaded_column (sheet : DataFrame F) (label : string) :
  label ∈ columns (load_food_dataset sheet) <->
  label ∈ nutrition_columns /\ label ∈ columns sheet.
Proof.
  unfold load_food_dataset, select_columns. cbn [columns].
  rewrite list_elem_of_filter. tauto.
Qed.

Lemma loaded_cell (sheet : DataFrame F) (r : row) (label : string) :
  filter (fun kv : string * cell F => kv.1 ∈ columns (load_food_dataset sheet)) r
    !! label =
  if bool_decide (label ∈ columns (load_food_dataset sheet)) then r !! label
  else None.
Proof.
  destruct (bool_decide_reflect (label ∈ columns (load_food_dataset sheet)))
    as [Hin|Hout].
  - destruct (r !! label) as [c|] eqn:Hr.
    + apply map_lookup_filter_Some. split; [exact Hr | exact Hin].
    + apply map_lookup_filter_None. left. exact Hr.
  - apply map_lookup_filter_None. right. intros c _ Hkeep. contradiction.
Qed.

(** X10.  The loader never fails.  The frame it returns has the columns of
    the allow-list that the sheet has, and no other; it has as many rows as
    the sheet; and each of its rows holds the cells of the sheet's row
    under these columns, unchanged, and no cell under another label. *)
Theorem load_food_dataset_projects (sheet : DataFrame F) :
  (forall label,
     label ∈ columns (load_food_dataset sheet) <->
     label ∈ nutrition_columns /\ label ∈ columns sheet) /\
  length (rows (load_food_dataset sheet)) = length (rows sheet) /\
  (forall i r,
     rows sheet !! i = Some r ->
     exists r',
       rows (load_food_dataset sheet) !! i = Some r' /\
       forall label,
         r' !! label =
         if bool_decide (label ∈ nutrition_columns /\ label ∈ columns sheet)
         then r !! label else None).
Proof.
  split; [apply loaded_column|]. split.
  - rewrite loaded_rows. apply length_map.
  - intros i r Hr. eexists. split.
    + rewrite loaded_rows, list_lookup_fmap, Hr. reflexivity.
    + intros label. rewrite loaded_cell.
      destruct (bool_decide_reflect (label ∈ columns (load_food_dataset sheet)))
        as [Hin|Hout];
        destruct (bool_decide_reflect
                    (label ∈ nutrition_columns /\ label ∈ columns sheet))
        as [Hin'|Hout']; try reflexivity.
      * apply loaded_column in Hin. contradiction.
      * apply loaded_column in Hin'. contradiction.
Qed.

Lemma filter_ext_in {A} (P Q : A -> Prop) `{forall x, Decision (P x)}
      `{forall x, Decision (Q x)} (l : list A) :
  (forall x, x ∈ l -> P x <-> Q x) -> filter P l = filter Q l.
Proof.
  induction l as [|x l IH]; intros Hext; [reflexivity|].
  assert (Hx : P x <-> Q x) by (apply Hext; left).
  assert (Hl : filter P l = filter Q l).
  { apply IH. intros y Hy. apply Hext. right. exact Hy. }
  rewrite !filter_cons.
  destruct (decide (P x)), (decide (Q x)); try tauto; congruence.
Qed.

(** X11.  Loading a loaded frame returns it. *)
Theorem load_food_dataset_idempotent (sheet : DataFrame F) :
  load_food_dataset (load_food_dataset sheet) = load_food_dataset sheet.
Proof.
  assert (Hcols : filter (fun col => col ∈ columns (load_food_dataset sheet))
                         nutrition_columns =
                  columns (load_food_dataset sheet)).
  { unfold load_food_dataset at 2, select_columns. cbn [columns].
    apply filter_ext_in. intros label Hallowed.
    rewrite loaded_column. tauto. }
  unfold load_food_dataset at 1. rewrite Hcols.
  unfold select_columns. rewrite loaded_rows, map_map.
  set (cols1 := columns (load_food_dataset sheet)).
  change (load_food_dataset sheet)
    with {| columns := cols1;
            rows := map (fun r : row => filter (fun kv => kv.1 ∈ cols1) r)
                        (rows sheet) |}.
  f_equal.
  apply map_ext. intros r. apply map_eq. intros label.
  rewrite !map_lookup_filter.
  destruct (r !! label) as [c|]; [|reflexivity]. cbn.
  destruct (decide (label ∈ cols1)) as [Hin|Hout].
  - rewrite !option_guard_True by exact Hin. cbn.
    rewrite option_guard_True by exact Hin. reflexivity.
  - rewrite !option_guard_False by exact Hout. reflexivity.
Qed.

End LoaderFacts.

(** ** The matcher, further *)

Lemma lower_char_idempotent (c : ascii) : lower_char (lower_char c) = lower_char c.
Proof. destruct c as [[] [] [] [] [] [] [] []]; vm_compute; reflexivity. Qed.

Lemma lower_idempotent (s : string) : lower (lower s) = lower s.
Proof.
  induction s as [|c s IH]; [reflexivity|].
  cbn [lower]. rewrite lower_char_idempotent, IH. reflexivity.
Qed.

Section MatcherFurther.

Context {F : Type} `{PyFloat F}.
Variable str_contains : string -> string -> bool.

Local Abbreviation row := (gmap string (cell F)).

Lemma filter_map_ext {A B} (P : B -> Prop) (Q : A -> Prop)
      `{forall y, Decision (P y)} `{forall x, Decision (Q x)}
      (f : A -> B) (l : list A) :
  (forall x, P (f x) <-> Q x) ->
  filter P (map f l) = map f (filter Q l).
Proof.
  intros Hext. induction l as [|x l IH]; [reflexivity|].
  cbn [map]. rewrite !filter_cons.
  destruct (decide (P (f x))) as [Hp|Hp], (decide (Q x)) as [Hq|Hq].
  - cbn [map]. rewrite IH. reflexivity.
  - apply Hext in Hp. contradiction.
  - apply Hext in Hq. contradiction.
  - exact IH.
Qed.

(** The matcher reads a row through five labels only. *)
Lemma match_of_row_ext (kind : match_type) (r r' : row) :
  (forall label, label ∈ matcher_columns -> r' !! label = r !! label) ->
  match_of_row kind r' = match_of_row kind r.
Proof.
  intros Hsame. unfold match_of_row, get_item.
  rewrite !Hsame by (unfold matcher_columns; list_member). reflexivity.
Qed.

(** X12.  On a sheet that has the five columns the matcher reads, the
    matcher returns the same result on the loaded frame as on the sheet:
    the projection of the loader does not change a match. *)
Theorem find_food_calories_after_load (sheet : DataFrame F) (food_name : string) :
  (forall label, label ∈ matcher_columns -> label ∈ columns sheet) ->
  find_food_calories str_contains food_name (load_food_dataset sheet) =
  find_food_calories str_contains food_name sheet.
Proof.
  intros Hcols.
  assert (Hkept : forall label, label ∈ matcher_columns ->
                    label ∈ columns (load_food_dataset sheet)).
  { intros label Hin. apply loaded_column. split; [|apply Hcols, Hin].
    unfold matcher_columns in Hin. unfold nutrition_columns.
    repeat (apply elem_of_cons in Hin as [->|Hin]; [list_member|]).
    inversion Hin. }
  set (f := fun r : row =>
              filter (fun kv : string * cell F =>
                        kv.1 ∈ columns (load_food_dataset sheet)) r).
  assert (Hcell : forall r label, label ∈ matcher_columns -> f r !! label = r !! label).
  { intros r label Hin. unfold f. rewrite loaded_cell.
    rewrite bool_decide_eq_true_2 by (apply Hkept, Hin). reflexivity. }
  assert (Hdesc : forall r, f r !! description_column = r !! description_column).
  { intros r. apply Hcell. unfold matcher_columns. list_member. }
  rewrite !find_food_calories_unfold.
  rewrite (bool_decide_eq_true_2 (description_column ∈ columns sheet))
    by (apply Hcols; unfold matcher_columns; list_member).
  rewrite (bool_decide_eq_true_2
             (description_column ∈ columns (load_food_dataset sheet)))
    by (apply Hkept; unfold matcher_columns; list_member).
  rewrite loaded_rows. fold f.
  rewrite (filter_map_ext _ (fun r => Is_true (is_exact (lower food_name) r)) f).
  2:{ intros r. unfold is_exact. rewrite Hdesc. tauto. }
  rewrite (filter_map_ext _
             (fun r => Is_true (is_partial str_contains (lower food_name) r)) f).
  2:{ intros r. unfold is_partial. rewrite Hdesc. tauto. }
  assert (Htexts : forallb has_text (map f (rows sheet)) =
                   forallb has_text (rows sheet)).
  { induction (rows sheet) as [|r rs IH]; [reflexivity|].
    cbn [map forallb]. rewrite IH. unfold has_text at 1 3. rewrite Hdesc.
    reflexivity. }
  rewrite Htexts.
  destruct (filter (fun r => Is_true (is_exact (lower food_name) r)) (rows sheet))
    as [|r matches]; cbn [map].
  - destruct (forallb has_text (rows sheet)); [|reflexivity].
    destruct (filter (fun r => Is_true (is_partial str_contains (lower food_name) r))
                     (rows sheet)) as [|r matches]; cbn [map]; [reflexivity|].
    apply match_of_row_ext. intros label. apply Hcell.
  - apply match_of_row_ext. intros label. apply Hcell.
Qed.

(** X13.  Matching does not depend on the case of the query: two names
    with the same lowered text get the same result, and so do a name and
    its lowered text. *)
Theorem find_food_calories_case_insensitive (dataset : DataFrame F) :
  (forall a b,
     lower a = lower b ->
     find_food_calories str_contains a dataset =
     find_food_calories str_contains b dataset) /\
  (forall a,
     find_food_calories str_contains (lower a) dataset =
     find_food_calories str_contains a dataset).
Proof.
  assert (Hsame : forall a b,
             lower a = lower b ->
             find_food_calories str_contains a dataset =
             find_food_calories str_contains b dataset).
  { intros a b Hab. rewrite !find_food_calories_unfold, Hab. reflexivity. }
  split; [exact Hsame|].
  intros a. apply Hsame, lower_idempotent.
Qed.

Lemma filter_nil_iff {A} (P : A -> Prop) `{forall x, Decision (P x)} (l : list A) :
  filter P l = [] <-> forall x, x ∈ l -> ~ P x.
Proof.
  split.
  - intros Hnil x Hx Hp.
    assert (Hin : x ∈ filter P l) by (apply list_elem_of_filter; auto).
    rewrite Hnil in Hin. inversion Hin.
  - intros Hnone. induction l as [|x l IH]; [reflexivity|].
    rewrite filter_cons_False by (apply Hnone; left).
    apply IH. intros y Hy. apply Hnone. right. exact Hy.
Qed.

Lemma match_of_row_not_sentinel (kind : match_type) (r : row) :
  kind <> NoMatchFound -> match_of_row kind r <> Ok no_match_found.
Proof.
  intros Hkind Hm.
  apply match_of_row_inv in Hm as (? & ? & ? & ? & ? & _ & _ & _ & _ & _ & Hm).
  apply (f_equal match_kind) in Hm. cbn in Hm. congruence.
Qed.

(** X14.  For a name that holds no regular-expression operator, so that
    the search for it is the literal one, the matcher returns the no-match
    record, all of whose values are 0, exactly when the table has the
    description column, every description is a text, and no lowered
    description equals or holds the lowered name; and a record the matcher
    returns with the no-match kind is that record. *)
Theorem find_food_calories_no_match (food_name : string) (dataset : DataFrame F) :
  (plain_pattern (lower food_name) = true ->
   (find_food_calories literal_contains food_name dataset = Ok no_match_found <->
    description_column ∈ columns dataset /\
    forallb has_text (rows dataset) = true /\
    forall r, r ∈ rows dataset ->
              is_exact (lower food_name) r = false /\
              is_partial literal_contains (lower food_name) r = false)) /\
  (forall m,
     find_food_calories str_contains food_name dataset = Ok m ->
     match_kind m = NoMatchFound -> m = no_match_found).
Proof.
  rewrite !find_food_calories_unfold. split.
  - intros _.
    destruct (bool_decide_reflect (description_column ∈ columns dataset))
      as [Hcol|Hcol];
      [|split; [discriminate | intros [Hfalse _]; contradiction]].
    destruct (filter (fun r => Is_true (is_exact (lower food_name) r))
                     (rows dataset)) as [|r matches] eqn:Hexact.
    + destruct (forallb has_text (rows dataset)) eqn:Htexts;
        [|split; [discriminate | intros (_ & Hfalse & _); discriminate]].
      destruct (filter (fun r => Is_true (is_partial literal_contains (lower food_name) r))
                       (rows dataset)) as [|r matches] eqn:Hpartial.
      * split; [|reflexivity]. intros _. split; [exact Hcol|]. split; [reflexivity|].
        intros r Hr.
        pose proof (proj1 (filter_nil_iff _ _) Hexact r Hr) as He.
        pose proof (proj1 (filter_nil_iff _ _) Hpartial r Hr) as Hp.
        split; apply not_true_is_false; intros Heq;
          [apply He | apply Hp]; rewrite Heq; exact I.
      * split.
        -- intros Hm. contradiction (match_of_row_not_sentinel Partial r); discriminate.
        -- intros (_ & _ & Hnone).
           apply filter_head_in in Hpartial as [Hr Hsel].
           destruct (Hnone r Hr) as [_ Hp]. rewrite Hp in Hsel. contradiction.
    + split.
      * intros Hm. contradiction (match_of_row_not_sentinel Exact r); discriminate.
      * intros (_ & _ & Hnone).
        apply filter_head_in in Hexact as [Hr Hsel].
        destruct (Hnone r Hr) as [He _]. rewrite He in Hsel. contradiction.
  - intros m.
    destruct (bool_decide (description_column ∈ columns dataset)); [|discriminate].
    destruct (filter (fun r => Is_true (is_exact (lower food_name) r))
                     (rows dataset)) as [|r matches].
    + destruct (forallb has_text (rows dataset)); [|discriminate].
      destruct (filter (fun r => Is_true (is_partial str_contains (lower food_name) r))
                       (rows dataset)) as [|r matches].
      * intros [= <-] _. reflexivity.
      * intros Hm Hkind.
        apply match_of_row_inv in Hm as (? & ? & ? & ? & ? & _ & _ & _ & _ & _ & ->).
        discriminate Hkind.
    + intros Hm Hkind.
      apply match_of_row_inv in Hm as (? & ? & ? & ? & ? & _ & _ & _ & _ & _ & ->).
      discriminate Hkind.
Qed.



End MatcherFurther.

(** ** The aggregator, further *)

Lemma filter_chars_app (p : ascii -> bool) (a b : string) :
  filter_chars p (a ++ b)%string = (filter_chars p a ++ filter_chars p b)%string.
Proof.
  induction a as [|c a IH]; [reflexivity|].
  change (String c a ++ b)%string with (String c (a ++ b)%string).
  cbn [filter_chars]. rewrite IH. destruct (p c); reflexivity.
Qed.

Lemma filter_chars_empty (p : ascii -> bool) (s : string) :
  filter_chars p s = "" <-> all_chars (fun c => negb (p c)) s = true.
Proof.
  induction s as [|c s IH]; [cbn; tauto|].
  cbn [filter_chars all_chars]. destruct (p c); cbn [negb andb].
  - split; discriminate.
  - exact IH.
Qed.

Lemma lower_char_digit (c : ascii) : isdigit c = true -> lower_char c = c.
Proof. destruct c as [[] [] [] [] [] [] [] []]; vm_compute; congruence. Qed.

Lemma isdigit_lower_char (c : ascii) : isdigit (lower_char c) = isdigit c.
Proof. destruct c as [[] [] [] [] [] [] [] []]; vm_compute; reflexivity. Qed.

Lemma isalpha_lower_char (c : ascii) : isalpha (lower_char c) = isalpha c.
Proof. destruct c as [[] [] [] [] [] [] [] []]; vm_compute; reflexivity. Qed.

Lemma filter_digits_lower (s : string) :
  filter_chars isdigit (lower s) = filter_chars isdigit s.
Proof.
  induction s as [|c s IH]; [reflexivity|].
  cbn [lower filter_chars]. rewrite isdigit_lower_char, IH.
  destruct (isdigit c) eqn:Hc; [|reflexivity].
  rewrite (lower_char_digit c Hc). reflexivity.
Qed.

Lemma filter_letters_lower (s : string) :
  filter_chars isalpha (lower s) = lower (filter_chars isalpha s).
Proof.
  induction s as [|c s IH]; [reflexivity|].
  cbn [lower filter_chars]. rewrite isalpha_lower_char, IH.
  destruct (isalpha c); reflexivity.
Qed.

Section AggregatorFurther.

Context {F : Type} `{PyFloat F}.
Variable str_contains : string -> string -> bool.

(** X17.  On a text of ASCII characters the quantity parser reads the
    digits and the letters and nothing else: it fails exactly on a text
    without a digit; a character that is neither a digit nor a letter,
    such as a decimal point or a blank, can be removed without changing
    the result; and the case of the letters does not matter. *)
Theorem parse_quantity_digits_and_letters :
  (forall s,
     isascii s = true ->
     (parse_quantity (F:=F) s = None <->
      all_chars (fun c => negb (isdigit c)) s = true)) /\
  (forall a c b,
     isascii (a ++ String c b) = true ->
     isdigit c = false -> isalpha c = false ->
     parse_quantity (F:=F) (a ++ String c b) = parse_quantity (a ++ b)) /\
  (forall s,
     isascii s = true ->
     parse_quantity (F:=F) (lower s) = parse_quantity s).
Proof.
  clear str_contains.
  split; [|split].
  - intros s _. unfold parse_quantity. rewrite <- filter_chars_empty.
    destruct (String.eqb_spec (filter_chars isdigit s) "") as [Heq|Hne].
    + tauto.
    + split; [discriminate | contradiction].
  - intros a c b _ Hdigit Hletter. unfold parse_quantity.
    rewrite !filter_chars_app. cbn [filter_chars].
    rewrite Hdigit, Hletter. reflexivity.
  - intros s _. unfold parse_quantity.
    rewrite filter_digits_lower, filter_letters_lower, lower_idempotent.
    reflexivity.
Qed.

Lemma process_entries_filter (query : string) (dataset : DataFrame F)
      (acc : Totals F) (es : list FoodEntry) :
  process_entries str_contains query dataset acc
                  (filter (fun e => Is_true (passes_filter query e)) es) =
  process_entries str_contains query dataset acc es.
Proof.
  revert acc. induction es as [|e es IH]; intros acc; [reflexivity|].
  destruct (passes_filter query e) eqn:Hpass.
  - rewrite filter_cons_True by (rewrite Hpass; exact I).
    cbn [process_entries].
    destruct (process_entry str_contains query dataset acc e);
      cbn [mbind result_bind]; [apply IH | reflexivity].
  - rewrite filter_cons_False by (rewrite Hpass; exact id).
    cbn [process_entries].
    rewrite (process_entry_skipped str_contains query dataset acc e Hpass).
    cbn [mbind result_bind]. apply IH.
Qed.

(** X18.  Aggregating a list of entries under a query item is aggregating
    the entries whose names hold the query item: the other entries can be
    removed beforehand without changing the result, errors included. *)
Theorem calculate_nutritional_info_filter
        (food_entries : list FoodEntry) (query : string) (dataset : DataFrame F) :
  calculate_nutritional_info str_contains
    (filter (fun e => Is_true (passes_filter query e)) food_entries)
    query dataset =
  calculate_nutritional_info str_contains food_entries query dataset.
Proof.
  unfold calculate_nutritional_info. rewrite process_entries_filter. reflexivity.
Qed.

(** X19.  An exception of the matcher ends the aggregation: when the
    entries before an entry are processed without error, the entry passes
    the filter, its quantity parses and the matcher raises on its name, the
    aggregator raises the same exception and returns nothing of what it
    had computed. *)
Theorem calculate_nutritional_info_raises
        (before : list FoodEntry) (entry : FoodEntry) (after : list FoodEntry)
        (query : string) (dataset : DataFrame F) (acc : Totals F) (err : exn) :
  process_entries str_contains query dataset initial_totals before = Ok acc ->
  passes_filter query entry = true ->
  parse_quantity (F:=F) (quantity entry) <> None ->
  find_food_calories str_contains (name entry) dataset = Err err ->
  calculate_nutritional_info str_contains (before ++ entry :: after) query dataset =
    Err err.
Proof.
  intros Hbefore Hpass Hparse Hfind. unfold calculate_nutritional_info.
  rewrite process_entries_app, Hbefore.
  cbn [mbind result_bind process_entries].
  unfold process_entry.
  change (str_in (lower query) (lower (name entry)))
    with (passes_filter query entry).
  rewrite Hpass. cbn [negb].
  destruct (parse_quantity (F:=F) (quantity entry)) as [[m unit]|];
    [|contradiction].
  rewrite Hfind. reflexivity.
Qed.

(** One iteration adds the same lines and names whatever the locals. *)
Lemma process_entry_shift (query : string) (dataset : DataFrame F)
      (acc acc' : Totals F) (entry : FoodEntry) :
  process_entry str_contains query dataset acc entry = Ok acc' ->
  exists lines names,
    detailed_breakdown acc' = detailed_breakdown acc ++ lines /\
    unmatched_foods acc' = unmatched_foods acc ++ names /\
    forall acc2,
    exists acc2',
      process_entry str_contains query dataset acc2 entry = Ok acc2' /\
      detailed_breakdown acc2' = detailed_breakdown acc2 ++ lines /\
      unmatched_foods acc2' = unmatched_foods acc2 ++ names.
Proof.
  intros Hstep.
  destruct (process_entry_outcome str_contains query dataset acc acc' entry Hstep)
    as [[Hpass ->] | (Hpass & o & Ho & Hlines & Hnames)].
  - exists [], []. rewrite !app_nil_r. split; [reflexivity|]. split; [reflexivity|].
    intros acc2. exists acc2. rewrite !app_nil_r.
    split; [apply process_entry_skipped; exact Hpass | auto].
  - exists (option_list (outcome_line o)), (option_list (outcome_unmatched o)).
    split; [exact Hlines|]. split; [exact Hnames|].
    intros acc2. destruct o as [text|food]; cbn in Ho |- *.
    + destruct Ho as (m & unit & info & d & cal & pro & car & ft & Hparse & Hfind
                      & Hkind & Hd & Hcal & Hpro & Hcar & Hft & ->).
      eexists. split.
      * apply (process_entry_matched str_contains query dataset acc2 entry m unit
                 info d cal pro car ft); assumption.
      * cbn. rewrite app_nil_r. auto.
    + destruct Ho as [-> [Hparse | (Hparse & info & Hfind & Hkind)]].
      * eexists. split; [apply process_entry_unparsed; assumption|].
        cbn. rewrite app_nil_r. auto.
      * destruct (parse_quantity (F:=F) (quantity entry)) as [[m unit]|] eqn:Hq;
          [|contradiction].
        eexists. split;
          [apply (process_entry_no_match str_contains query dataset acc2 entry
                    m unit info); assumption|].
        cbn. rewrite app_nil_r. auto.
Qed.

Lemma process_entries_shift (query : string) (dataset : DataFrame F)
      (es : list FoodEntry) (acc acc' : Totals F) :
  process_entries str_contains query dataset acc es = Ok acc' ->
  exists lines names,
    detailed_breakdown acc' = detailed_breakdown acc ++ lines /\
    unmatched_foods acc' = unmatched_foods acc ++ names /\
    forall acc2,
    exists acc2',
      process_entries str_contains query dataset acc2 es = Ok acc2' /\
      detailed_breakdown acc2' = detailed_breakdown acc2 ++ lines /\
      unmatched_foods acc2' = unmatched_foods acc2 ++ names.
Proof.
  revert acc. induction es as [|e es IH]; intros acc.
  - intros [= <-]. exists [], []. rewrite !app_nil_r.
    split; [reflexivity|]. split; [reflexivity|].
    intros acc2. exists acc2. rewrite !app_nil_r. auto.
  - cbn [process_entries].
    destruct (process_entry str_contains query dataset acc e) as [acc1|]
      eqn:Hstep; [|discriminate].
    cbn [mbind result_bind]. intros Hrest.
    destruct (process_entry_shift query dataset acc acc1 e Hstep)
      as (l1 & n1 & Hl1 & Hn1 & Hshift1).
    destruct (IH acc1 Hrest) as (l2 & n2 & Hl2 & Hn2 & Hshift2).
    exists (l1 ++ l2), (n1 ++ n2).
    rewrite Hl2, Hn2, Hl1, Hn1, <- !app_assoc.
    split; [reflexivity|]. split; [reflexivity|].
    intros acc2.
    destruct (Hshift1 acc2) as (acc3 & Hstep3 & Hl3 & Hn3).
    destruct (Hshift2 acc3) as (acc4 & Hrest4 & Hl4 & Hn4).
    exists acc4. rewrite Hstep3. cbn [mbind result_bind].
    rewrite Hrest4, Hl4, Hn4, Hl3, Hn3, <- !app_assoc. auto.
Qed.

(** X20.  Aggregating two lists of entries one after the other: when the
    aggregator returns on each list, it returns on their concatenation,
    with the breakdown lines of the first list followed by those of the
    second, and the unmatched names of the first followed by those of the
    second. *)
Theorem process_entries_concatenation
        (query : string) (dataset : DataFrame F)
        (es1 es2 : list FoodEntry) (acc1 acc2 : Totals F) :
  process_entries str_contains query dataset initial_totals es1 = Ok acc1 ->
  process_entries str_contains query dataset initial_totals es2 = Ok acc2 ->
  exists acc info,
    process_entries str_contains query dataset initial_totals (es1 ++ es2) = Ok acc /\
    detailed_breakdown acc = detailed_breakdown acc1 ++ detailed_breakdown acc2 /\
    unmatched_foods acc = unmatched_foods acc1 ++ unmatched_foods acc2 /\
    calculate_nutritional_info str_contains (es1 ++ es2) query dataset = Ok info /\
    info_unmatched info = unmatched_foods acc1 ++ unmatched_foods acc2 /\
    breakdown info =
      join newline (detailed_breakdown acc1 ++ detailed_breakdown acc2).
Proof.
  intros Hes1 Hes2.
  destruct (process_entries_shift query dataset es2 initial_totals acc2 Hes2)
    as (lines & names & Hlines & Hnames & Hshift).
  cbn [initial_totals detailed_breakdown unmatched_foods app] in Hlines, Hnames.
  destruct (Hshift acc1) as (acc & Hrun & Hl & Hn).
  assert (Hall : process_entries str_contains query dataset initial_totals
                                 (es1 ++ es2) = Ok acc).
  { rewrite process_entries_app, Hes1. exact Hrun. }
  eexists acc, _. split; [exact Hall|].
  rewrite Hlines, Hnames. split; [exact Hl|]. split; [exact Hn|].
  unfold calculate_nutritional_info. rewrite Hall.
  cbn [mbind result_bind mret result_ret]. split; [reflexivity|].
  cbn [info_unmatched breakdown]. rewrite Hl, Hn. auto.
Qed.

End AggregatorFurther.

(** ** The tracking page and the session state *)

Section PageFurther.

Context {F : Type} `{PyFloat F}.
Variable str_contains : string -> string -> bool.

(** X21.  The tracking page never changes the log: whatever the profile
    name, the form and the button, the rows of the log after the run are
    the rows before it, and the run ends without an exception or with the
    [TypeError] of the call of [calculate_nutritional_info]. *)
Theorem nutrition_tracking_page_keeps_log
        (profile_name : string) (food_dataset : DataFrame F)
        (intake_date meal_type : string) (fields : list (string * string))
        (submitted : bool) (log : list (LogRow F)) :
  snd (nutrition_tracking_page str_contains profile_name food_dataset
         intake_date meal_type fields submitted log) = log /\
  (fst (nutrition_tracking_page str_contains profile_name food_dataset
          intake_date meal_type fields submitted log) = None \/
   fst (nutrition_tracking_page str_contains profile_name food_dataset
          intake_date meal_type fields submitted log) =
     Some (TypeError
             "calculate_nutritional_info() missing 1 required positional argument: 'dataset'")).
Proof.
  unfold nutrition_tracking_page.
  destruct (String.eqb profile_name ""); [cbn; auto|].
  destruct (submitted && (0 <? length (form_entries fields))%nat);
    [|cbn; auto].
  rewrite call_with_two_arguments. cbn. auto.
Qed.


End PageFurther.

Lemma initialize_lookup (state : session_state) (key : string) :
  initialize_session_state state !! key =
  match state !! key with
  | Some fields => Some fields
  | None => list_to_map (M:=gmap string (gmap string pyobj)) default_states !! key
  end.
Proof.
  unfold initialize_session_state, default_states.
  cbn [fold_left fst snd list_to_map foldr].
  destruct (decide (key = "user_profile")) as [->|Hup];
    [|destruct (decide (key = "health_parameters")) as [->|Hhp]].
  - destruct (state !! "user_profile") as [up|] eqn:Hstate.
    + destruct (state !! "health_parameters");
        rewrite ?lookup_insert_ne by discriminate; exact Hstate.
    + rewrite lookup_insert_ne by discriminate.
      destruct (state !! "health_parameters");
        rewrite ?lookup_insert_ne by discriminate;
        rewrite !lookup_insert_eq; reflexivity.
  - destruct (state !! "user_profile") as [up|] eqn:Hstate.
    + destruct (state !! "health_parameters") as [hp|] eqn:Hstate2.
      * exact Hstate2.
      * rewrite lookup_insert_eq, lookup_insert_ne, lookup_insert_eq
          by discriminate. reflexivity.
    + rewrite lookup_insert_ne by discriminate.
      destruct (state !! "health_parameters") as [hp|] eqn:Hstate2.
      * rewrite lookup_insert_ne by discriminate. exact Hstate2.
      * rewrite lookup_insert_eq, lookup_insert_ne, lookup_insert_eq
          by discriminate. reflexivity.
  - destruct (state !! "user_profile") as [up|] eqn:Hstate;
      rewrite ?lookup_insert_ne by congruence;
      destruct (state !! "health_parameters") as [hp|] eqn:Hstate2;
      rewrite ?lookup_insert_ne by congruence;
      destruct (state !! key); reflexivity.
Qed.

(** X23.  Initialising the session state keeps every entry the state
    has; it stores the default profile and the default health parameters
    under their keys when these are absent, and nothing under any other
    key; afterwards both keys are present, and initialising again changes
    nothing. *)
Theorem initialize_session_state_defaults (state : session_state) :
  (forall key fields,
     state !! key = Some fields ->
     initialize_session_state state !! key = Some fields) /\
  (forall key,
     state !! key = None ->
     initialize_session_state state !! key =
       list_to_map (M:=gmap string (gmap string pyobj)) default_states !! key) /\
  (forall key,
     key <> "user_profile" -> key <> "health_parameters" ->
     initialize_session_state state !! key = state !! key) /\
  is_Some (initialize_session_state state !! "user_profile") /\
  is_Some (initialize_session_state state !! "health_parameters") /\
  initialize_session_state (initialize_session_state state) =
    initialize_session_state state.
Proof.
  split; [|split; [|split; [|split; [|split]]]].
  - intros key fields Hkey. rewrite initialize_lookup, Hkey. reflexivity.
  - intros key Hkey. rewrite initialize_lookup, Hkey. reflexivity.
  - intros key Hup Hhp. rewrite initialize_lookup.
    destruct (state !! key); [reflexivity|].
    unfold default_states. cbn [list_to_map foldr fst snd].
    rewrite !lookup_insert_ne, lookup_empty by congruence. reflexivity.
  - rewrite initialize_lookup.
    destruct (state !! "user_profile"); [eexists; reflexivity|].
    unfold default_states. cbn [list_to_map foldr fst snd].
    rewrite lookup_insert_eq. eexists; reflexivity.
  - rewrite initialize_lookup.
    destruct (state !! "health_parameters"); [eexists; reflexivity|].
    unfold default_states. cbn [list_to_map foldr fst snd].
    rewrite lookup_insert_ne, lookup_insert_eq by discriminate.
    eexists; reflexivity.
  - apply map_eq. intros key. rewrite (initialize_lookup (initialize_session_state state)).
    destruct (initialize_session_state state !! key) eqn:Hkey; [reflexivity|].
    rewrite initialize_lookup in Hkey.
    destruct (state !! key); [discriminate | exact Hkey].
Qed.

(** X24.  The test of the profile on a session without a profile: the
    tracking page of [Health_tracker_1.py] sees that the profile is missing
    and stops with its warning, where the page of [Health_tracker.py]
    raises [KeyError]; once the session state is initialised both see a
    missing profile, the default name being empty; and whenever the test of
    [Health_tracker.py] returns, the test of [Health_tracker_1.py] returns
    the same. *)
Theorem profile_missing_tests (state : session_state) :
  (state !! "user_profile" = None ->
   profile_missing_1 state = Ok true /\
   profile_missing_0 state = Err (KeyError "user_profile") /\
   profile_missing_0 (initialize_session_state state) = Ok true /\
   profile_missing_1 (initialize_session_state state) = Ok true) /\
  (forall missing,
     profile_missing_0 state = Ok missing ->
     profile_missing_1 state = Ok missing).
Proof.
  split.
  - intros Hnone.
    assert (Hinit : initialize_session_state state !! "user_profile" =
                    list_to_map (M:=gmap string (gmap string pyobj))
                                default_states !! "user_profile").
    { rewrite initialize_lookup, Hnone. reflexivity. }
    unfold profile_missing_1, profile_missing_0, session_field.
    rewrite Hnone, Hinit. repeat split; vm_compute; reflexivity.
  - intros missing. unfold profile_missing_1, profile_missing_0, session_field.
    destruct (state !! "user_profile"); [auto | discriminate].
Qed.

(** ** The further properties on sample inputs *)

(** X2, witness: a row with a description of two tokens and five numbers. *)
Lemma split_row_shape_witness :
  (6 <= 7)%nat /\
  (length ["52"; "0.3"; "14"; "0.2"; "2.4"] = 4 \/
   length ["52"; "0.3"; "14"; "0.2"; "2.4"] = 5)%nat /\
  forallb py_float_ok ["52"; "0.3"; "14"; "0.2"; "2.4"] = true /\
  ["52"; "0.3"; "14"; "0.2"; "2.4"] =
    firstn 5 (last_n 5 ["Apple"; "pie"; "52"; "0.3"; "14"; "0.2"; "2.4"]) /\
  ["Apple"; "pie"] =
    firstn (7 - 5) ["Apple"; "pie"; "52"; "0.3"; "14"; "0.2"; "2.4"] /\
  ["Apple"; "pie"] <> [].
Proof.
  apply (split_row_shape py_float_ok
           ["Apple"; "pie"; "52"; "0.3"; "14"; "0.2"; "2.4"]
           ["Apple"; "pie"] ["52"; "0.3"; "14"; "0.2"; "2.4"]).
  vm_compute. reflexivity.
Defined.

(** X3, witness: a row that ends in a token [float] rejects. *)
Lemma split_row_four_fields_witness :
  exists a b c d e,
    last_n 5 ["a"; "1"; "2"; "3"; "4"; "x"] = [a; b; c; d; e] /\
    ["1"; "2"; "3"; "4"] = [a; b; c; d] /\
    py_float_ok e = false /\
    ["a"; "1"] = firstn (6 - 5) ["a"; "1"; "2"; "3"; "4"; "x"] ++ [a].
Proof.
  apply (split_row_four_fields py_float_ok ["a"; "1"; "2"; "3"; "4"; "x"]
           ["a"; "1"] ["1"; "2"; "3"; "4"]).
  - vm_compute. reflexivity.
  - reflexivity.
Defined.

(** X4, witness: four numbers after a token [float] rejects. *)
Lemma split_row_right_run_of_four_witness :
  split_row py_float_ok ["apple"; "x"; "1"; "2"; "3"; "4"] = None.
Proof.
  apply (split_row_right_run_of_four py_float_ok
           ["apple"; "x"; "1"; "2"; "3"; "4"]).
  - vm_compute. lia.
  - vm_compute. reflexivity.
Defined.

(** X5, witness. *)
Lemma clean_row_fields_witness :
  exists desc nums,
    split_row py_float_ok (tokens "Apple pie 52 0.3 14 0.2 2.4") = Some (desc, nums) /\
    tab_fields (join tab ["Apple_pie"; "52"; "0.3"; "14"; "0.2"; "2.4"]) =
      join "_" desc :: nums /\
    (length (tab_fields (join tab ["Apple_pie"; "52"; "0.3"; "14"; "0.2"; "2.4"])) = 5 \/
     length (tab_fields (join tab ["Apple_pie"; "52"; "0.3"; "14"; "0.2"; "2.4"])) = 6)%nat /\
    Forall (fun f => is_token f = true)
           (tab_fields (join tab ["Apple_pie"; "52"; "0.3"; "14"; "0.2"; "2.4"])).
Proof.
  apply (clean_row_fields py_float_ok "Apple pie 52 0.3 14 0.2 2.4").
  vm_compute. reflexivity.
Defined.

(** X6, witness: a line of six fields and a line of five. *)
Lemma clean_row_again_witness :
  clean_row py_float_ok (join tab ["Apple_pie"; "52"; "0.3"; "14"; "0.2"; "2.4"]) =
    Some (join tab ["Apple_pie"; "52"; "0.3"; "14"; "0.2"; "2.4"]) /\
  clean_row py_float_ok (join tab ["a_1"; "1"; "2"; "3"; "4"]) = None.
Proof.
  split.
  - rewrite (clean_row_again py_float_ok "Apple pie 52 0.3 14 0.2 2.4"
               (join tab ["Apple_pie"; "52"; "0.3"; "14"; "0.2"; "2.4"])).
    + vm_compute. reflexivity.
    + vm_compute. reflexivity.
  - rewrite (clean_row_again py_float_ok "a 1 2 3 4 x"
               (join tab ["a_1"; "1"; "2"; "3"; "4"])).
    + vm_compute. reflexivity.
    + vm_compute. reflexivity.
Defined.

(** X7, witness: the header of the nutrient table, of twelve tokens, and a
    header of six. *)
Lemma clean_header_fields_witness :
  tab_fields
    (clean_header
       (strip "Main food description Energy (kcal) Protein (g) Carbohydrate (g) Total Fat (g)")) =
    ["Main_food_description_Energy_(kcal)_Protein_(g)";
     "Carbohydrate"; "(g)"; "Total"; "Fat"; "(g)"] /\
  tab_fields (clean_header (strip "description energy protein carbs fat sugar")) =
    ["description"; "energy"; "protein"; "carbs"; "fat"; "sugar"].
Proof.
  split.
  - rewrite (proj1 (clean_header_fields
      "Main food description Energy (kcal) Protein (g) Carbohydrate (g) Total Fat (g)")).
    + vm_compute. reflexivity.
    + vm_compute. lia.
  - rewrite (proj1 (proj2 (clean_header_fields
      "description energy protein carbs fat sugar"))).
    + vm_compute. reflexivity.
    + vm_compute. lia.
Defined.


(** X12, witness: the table of the worked example as a sheet. *)
Lemma find_food_calories_after_load_witness :
  find_food_calories literal_contains "banana" (load_food_dataset banana_dataset) =
  find_food_calories literal_contains "banana" banana_dataset.
Proof.
  apply (find_food_calories_after_load literal_contains banana_dataset "banana").
  intros label Hin. exact Hin.
Defined.

(** X14, witness: the name of the second worked example on the table of
    the first. *)
Lemma find_food_calories_no_match_witness :
  find_food_calories literal_contains "xyz123food" banana_dataset =
    Ok no_match_found <->
  description_column ∈ columns banana_dataset /\
  forallb has_text (rows banana_dataset) = true /\
  forall r, r ∈ rows banana_dataset ->
            is_exact (lower "xyz123food") r = false /\
            is_partial literal_contains (lower "xyz123food") r = false.
Proof.
  apply (proj1 (find_food_calories_no_match literal_contains "xyz123food"
                  banana_dataset)).
  vm_compute. reflexivity.
Defined.



(** X17, witness: a quantity without a digit, a quantity with a decimal
    point, and a quantity in capital letters. *)
Lemma parse_quantity_digits_and_letters_witness :
  (parse_quantity (F:=Q) "some" = None <->
   all_chars (fun c => negb (isdigit c)) "some" = true) /\
  parse_quantity (F:=Q) ("2" ++ String "." "5g") = parse_quantity ("2" ++ "5g") /\
  parse_quantity (F:=Q) (lower "200G") = parse_quantity "200G".
Proof.
  split; [|split].
  - apply (proj1 parse_quantity_digits_and_letters "some").
    vm_compute. reflexivity.
  - apply (proj1 (proj2 parse_quantity_digits_and_letters) "2" "."%char "5g");
      vm_compute; reflexivity.
  - apply (proj2 (proj2 parse_quantity_digits_and_letters) "200G").
    vm_compute. reflexivity.
Defined.

(** X19, witness: a sheet without the fat column; the entry [rice] finds
    nothing, the entry [banana] finds a row and raises. *)
Lemma calculate_nutritional_info_raises_witness :
  calculate_nutritional_info literal_contains [rice_100g; banana_200g; unknown_food]
                             "" (load_food_dataset fatless_sheet) =
    Err (KeyError fat_column).
Proof.
  apply (calculate_nutritional_info_raises literal_contains [rice_100g] banana_200g
           [unknown_food] "" (load_food_dataset fatless_sheet)
           (add_unmatched "rice" initial_totals)).
  - vm_compute. reflexivity.
  - vm_compute. reflexivity.
  - vm_compute. discriminate.
  - vm_compute. reflexivity.
Defined.

(** X20, witness: a matched entry, then an unmatched one. *)
Lemma process_entries_concatenation_witness :
  exists acc info,
    process_entries literal_contains "" banana_dataset initial_totals
                    ([banana_200g] ++ [unknown_food]) = Ok acc /\
    detailed_breakdown acc =
      ["Banana, raw (200g): 178 cal (Protein: 2.2g, Carbs: 46.0g, Fat: 0.6g)"] ++ [] /\
    unmatched_foods acc = [] ++ ["xyz123food"] /\
    calculate_nutritional_info literal_contains ([banana_200g] ++ [unknown_food])
                               "" banana_dataset = Ok info /\
    info_unmatched info = [] ++ ["xyz123food"] /\
    breakdown info =
      join newline
        (["Banana, raw (200g): 178 cal (Protein: 2.2g, Carbs: 46.0g, Fat: 0.6g)"] ++ []).
Proof.
  apply (process_entries_concatenation literal_contains "" banana_dataset
           [banana_200g] [unknown_food]
           {| total_calories := 178 # 1; total_protein := 11 # 5;
              total_carbs := 46 # 1; total_fat := 3 # 5;
              detailed_breakdown :=
                ["Banana, raw (200g): 178 cal (Protein: 2.2g, Carbs: 46.0g, Fat: 0.6g)"];
              unmatched_foods := [] |}
           (add_unmatched "xyz123food" initial_totals)).
  - vm_compute. reflexivity.
  - vm_compute. reflexivity.
Defined.


(** X24, witness: the empty session, and a session with a saved name. *)
Lemma profile_missing_tests_witness :
  (profile_missing_1 ∅ = Ok true /\
   profile_missing_0 ∅ = Err (KeyError "user_profile") /\
   profile_missing_0 (initialize_session_state ∅) = Ok true /\
   profile_missing_1 (initialize_session_state ∅) = Ok true) /\
  profile_missing_1 ada_session = Ok false.
Proof.
  split.
  - apply (proj1 (profile_missing_tests ∅)). reflexivity.
  - apply (proj2 (profile_missing_tests ada_session)). vm_compute. reflexivity.
Defined.
